(** * PresentationTab: a shallow embedding of src/components/PresentationTab.tsx

    The React component keeps five pieces of state ([presentation],
    [currentSlide], [presentationUrl], [fallbackUsed], [isGenerating]) and a
    form; its handlers are embedded here as state-passing computations that
    also log the side effects they trigger (toasts, the network request,
    the markdown download). *)

From Stdlib Require Import String Ascii DecimalString.
From Stdlib Require Import ZArith NArith List Bool Lia.
Import ListNotations.
Local Open Scope Z_scope.

(** ** JavaScript values used by the component *)

Module JS.

(** A JavaScript string is a sequence of UTF-16 code units. *)
Definition jsstring := list N.

(** An ASCII literal of the source, as code units. *)
Definition lit (s : string) : jsstring :=
  map N_of_ascii (list_ascii_of_string s).

Definition eqb (a b : jsstring) : bool :=
  if list_eq_dec N.eq_dec a b then true else false.

(** ToBoolean on a string: only the empty string is falsy. *)
Definition truthy (s : jsstring) : bool :=
  match s with [] => false | _ :: _ => true end.

(** [a || b] where [a] may be [undefined] and both are strings. *)
Definition or_else (a : option jsstring) (b : jsstring) : jsstring :=
  match a with
  | Some s => if truthy s then s else b
  | None => b
  end.

(** [s || undefined] / [s || null]. *)
Definition or_undefined (a : option jsstring) : option jsstring :=
  match a with
  | Some s => if truthy s then Some s else None
  | None => None
  end.

(** WhiteSpace and LineTerminator code points of ECMAScript, the ones
    [String.prototype.trim] strips and [\s] matches. *)
Definition isWhiteSpace (c : N) : bool :=
  ((9 <=? c) && (c <=? 13) || (c =? 32) || (c =? 160) || (c =? 5760)
   || (8192 <=? c) && (c <=? 8202) || (c =? 8232) || (c =? 8233)
   || (c =? 8239) || (c =? 8287) || (c =? 12288) || (c =? 65279))%N.

Fixpoint trimStart (s : jsstring) : jsstring :=
  match s with
  | [] => []
  | c :: r => if isWhiteSpace c then trimStart r else s
  end.

Definition trimEnd (s : jsstring) : jsstring :=
  rev (trimStart (rev s)).

Definition trim (s : jsstring) : jsstring :=
  trimEnd (trimStart s).

(** [Array.prototype.join] on an array of strings. *)
Fixpoint join (sep : jsstring) (l : list jsstring) : jsstring :=
  match l with
  | [] => []
  | [x] => x
  | x :: r => x ++ sep ++ join sep r
  end.

(** Number-to-string conversion of an integer, as a template literal
    performs it: decimal digits, a leading minus sign when negative. *)
Definition Number_toString (n : Z) : jsstring :=
  lit (NilZero.string_of_int (Z.to_int n)).

(** [s.replace(/\s+/g, r)]: every maximal run of white space becomes [r];
    [inRun] tells that the previous code unit already belonged to the run. *)
Fixpoint replaceRuns (r : jsstring) (inRun : bool) (s : jsstring) : jsstring :=
  match s with
  | [] => []
  | c :: t =>
      if isWhiteSpace c
      then (if inRun then [] else r) ++ replaceRuns r true t
      else c :: replaceRuns r false t
  end.

Definition replaceWhiteSpaceRuns (r s : jsstring) : jsstring :=
  replaceRuns r false s.

End JS.

Import JS.

(** ** Data model (the interfaces of the source) *)

Module PresentationSlide.
Record t := mk { title : jsstring; content : list jsstring }.
End PresentationSlide.

Module PresentationData.
Record t := mk {
  title : jsstring;
  slides : list PresentationSlide.t;
  total_slides : Z;
  theme : jsstring }.
End PresentationData.

Module PresentationRequest.
Record t := mk {
  session_id : jsstring;
  topic : option jsstring;          (* [topic?: string]; [None] is [undefined] *)
  max_slides : Z }.
End PresentationRequest.

(** The parsed response body.  The interface declares most fields as
    required, but the handler guards each read with [||], so every field
    may be missing from the payload: [None] is [undefined]. *)
Module PresentationResponse.
Record t := mk {
  status : option jsstring;
  message : option jsstring;
  presentation_url : option jsstring;
  slides : option (list PresentationSlide.t);
  slide_count : option Z;
  api_used : option bool;
  fallback_used : option bool;
  title : option jsstring }.
End PresentationResponse.

(** What the handler reads of [useApp().state.session]. *)
Module Session.
Record t := mk {
  active : bool;
  file_info : jsstring;
  word_count : option Z;
  page_count : Z }.
End Session.

Record FormData := mkFormData { topic : jsstring; slideCount : Z }.

(** The [useState] cells of the component. *)
Record State := mkState {
  isGenerating : bool;
  presentation : option PresentationData.t;
  currentSlide : Z;
  presentationUrl : option jsstring;
  fallbackUsed : bool;
  formData : FormData }.

(** [useState] initial values. *)
Definition initialState : State :=
  {| isGenerating := false;
     presentation := None;
     currentSlide := 0;
     presentationUrl := None;
     fallbackUsed := false;
     formData := {| topic := []; slideCount := 8 |} |}.

(** ** JSON request body *)

Inductive jsvalue :=
| VUndefined
| VNumber (n : Z)
| VString (s : jsstring).

(** A JSON scalar, and a flat JSON object as its members in order. *)
Inductive json :=
| JNumber (n : Z)
| JString (s : jsstring).

Definition jsonObject := list (jsstring * json).

(** Own enumerable properties of the [requestData] literal, in the order
    the literal lists them. *)
Definition properties (r : PresentationRequest.t) : list (jsstring * jsvalue) :=
  [ (lit "session_id", VString (PresentationRequest.session_id r));
    (lit "topic", match PresentationRequest.topic r with
                  | Some s => VString s
                  | None => VUndefined
                  end);
    (lit "max_slides", VNumber (PresentationRequest.max_slides r)) ].

(** [JSON.stringify] of a flat object: a property whose value is
    [undefined] is left out.  The text is kept as the object it denotes. *)
Fixpoint stringifyMembers (ps : list (jsstring * jsvalue)) : jsonObject :=
  match ps with
  | [] => []
  | (k, VUndefined) :: r => stringifyMembers r
  | (k, VNumber n) :: r => (k, JNumber n) :: stringifyMembers r
  | (k, VString s) :: r => (k, JString s) :: stringifyMembers r
  end.

Definition JSON_stringify (r : PresentationRequest.t) : jsonObject :=
  stringifyMembers (properties r).

(** Lookup of a key among the members of a JSON object. *)
Fixpoint member (k : jsstring) (ms : jsonObject) : option json :=
  match ms with
  | [] => None
  | (k', v) :: r => if JS.eqb k k' then Some v else member k r
  end.

(** ** The environment: errors, the network, side effects *)

(** A caught error, as far as the [catch] block reads it:
    [error.response?.data?.detail] and [error.message]. *)
Record JsError := mkJsError {
  response_data_detail : option jsstring;
  error_message : option jsstring }.

(** How [response.json()] settles: it rejects (the body is not JSON),
    or resolves with the parsed value; [None] is a body that parses to
    [null]. *)
Inductive JsonOutcome :=
| json_rejects (e : JsError)
| json_resolves (data : option PresentationResponse.t).

(** How [fetch] settles: it rejects (network error) or resolves with a
    response whose body is still to be read. *)
Inductive FetchOutcome :=
| fetch_rejects (e : JsError)
| fetch_resolves (body : JsonOutcome).

Record RequestInit := mkRequestInit {
  method : jsstring;
  headers : list (jsstring * jsstring);
  body : jsonObject }.

(** Side effects a handler triggers, in the order it triggers them. *)
Inductive Effect :=
| toast_error (msg : jsstring)
| toast_success (msg : jsstring) (duration : option Z)
| fetch (url : jsstring) (init : RequestInit)
| console_error (label : jsstring) (e : JsError)
| download (filename : jsstring) (mime : jsstring) (text : jsstring).

(** ** A small monad: state, effect log, exceptions *)

Inductive Completion (A : Type) :=
| Normal (a : A)
| Throw (e : JsError).
Arguments Normal {A} a.
Arguments Throw {A} e.

Definition Handler (A : Type) : Type :=
  State -> Completion A * State * list Effect.

Definition ret {A} (a : A) : Handler A :=
  fun st => (Normal a, st, []).

Definition bind {A B} (m : Handler A) (k : A -> Handler B) : Handler B :=
  fun st =>
    match m st with
    | (Normal a, st1, l1) =>
        let '(c, st2, l2) := k a st1 in (c, st2, l1 ++ l2)
    | (Throw e, st1, l1) => (Throw e, st1, l1)
    end.

Definition throw {A} (e : JsError) : Handler A :=
  fun st => (Throw e, st, []).

Definition emit (x : Effect) : Handler unit :=
  fun st => (Normal tt, st, [x]).

Definition read {A} (f : State -> A) : Handler A :=
  fun st => (Normal (f st), st, []).

Definition update (f : State -> State) : Handler unit :=
  fun st => (Normal tt, f st, []).

(** [try { m } catch (error) { h error } finally { f }]. *)
Definition try_catch_finally {A} (m : Handler A) (h : JsError -> Handler A)
    (f : Handler unit) : Handler A :=
  fun st =>
    let '(c, st2, l2) :=
      match m st with
      | (Normal a, st1, l1) => (Normal a, st1, l1)
      | (Throw e, st1, l1) =>
          let '(c, st2, l2) := h e st1 in (c, st2, l1 ++ l2)
      end in
    match f st2 with
    | (Normal _, st3, l3) => (c, st3, l2 ++ l3)
    | (Throw e, st3, l3) => (Throw e, st3, l2 ++ l3)
    end.

Declare Scope handler_scope.
Delimit Scope handler_scope with handler.
Notation "x <- m ;; k" := (bind m (fun x => k))
  (at level 61, m at next level, right associativity) : handler_scope.
Notation "m ;; k" := (bind m (fun _ => k))
  (at level 61, right associativity) : handler_scope.
Local Open Scope handler_scope.

(** The state setters returned by [useState]. *)
Definition setIsGenerating (b : bool) : Handler unit :=
  update (fun st => {| isGenerating := b;
                       presentation := presentation st;
                       currentSlide := currentSlide st;
                       presentationUrl := presentationUrl st;
                       fallbackUsed := fallbackUsed st;
                       formData := formData st |}).

Definition setPresentation (p : option PresentationData.t) : Handler unit :=
  update (fun st => {| isGenerating := isGenerating st;
                       presentation := p;
                       currentSlide := currentSlide st;
                       presentationUrl := presentationUrl st;
                       fallbackUsed := fallbackUsed st;
                       formData := formData st |}).

Definition setCurrentSlide (i : Z) : Handler unit :=
  update (fun st => {| isGenerating := isGenerating st;
                       presentation := presentation st;
                       currentSlide := i;
                       presentationUrl := presentationUrl st;
                       fallbackUsed := fallbackUsed st;
                       formData := formData st |}).

Definition setPresentationUrl (u : option jsstring) : Handler unit :=
  update (fun st => {| isGenerating := isGenerating st;
                       presentation := presentation st;
                       currentSlide := currentSlide st;
                       presentationUrl := u;
                       fallbackUsed := fallbackUsed st;
                       formData := formData st |}).

Definition setFallbackUsed (b : bool) : Handler unit :=
  update (fun st => {| isGenerating := isGenerating st;
                       presentation := presentation st;
                       currentSlide := currentSlide st;
                       presentationUrl := presentationUrl st;
                       fallbackUsed := b;
                       formData := formData st |}).

Definition setFormData (f : FormData) : Handler unit :=
  update (fun st => {| isGenerating := isGenerating st;
                       presentation := presentation st;
                       currentSlide := currentSlide st;
                       presentationUrl := presentationUrl st;
                       fallbackUsed := fallbackUsed st;
                       formData := f |}).

(** ** generatePresentation *)

Definition LF : jsstring := [10%N].

(** [await fetch(url, init)]: the request goes out, then the promise settles. *)
Definition await_fetch (net : FetchOutcome) (url : jsstring) (init : RequestInit)
  : Handler JsonOutcome :=
  emit (fetch url init) ;;
  match net with
  | fetch_rejects e => throw e
  | fetch_resolves b => ret b
  end.

(** [await response.json()]. *)
Definition await_json (r : JsonOutcome) : Handler (option PresentationResponse.t) :=
  match r with
  | json_rejects e => throw e
  | json_resolves d => ret d
  end.

(** Reading a property of [null] throws a TypeError; the message text is
    the engine's and only has to be non-empty. *)
Definition TypeError_null : JsError :=
  {| response_data_detail := None;
     error_message := Some (lit "Cannot read properties of null (reading 'status')") |}.

Definition property_base (d : option PresentationResponse.t)
  : Handler PresentationResponse.t :=
  match d with
  | Some r => ret r
  | None => throw TypeError_null
  end.

(** [data.status === 'success'] *)
Definition status_is_success (r : PresentationResponse.t) : bool :=
  match PresentationResponse.status r with
  | Some s => JS.eqb s (lit "success")
  | None => false
  end.

(** [data.slides || []]: an array is always truthy. *)
Definition slides_or_empty (a : option (list PresentationSlide.t))
  : list PresentationSlide.t :=
  match a with Some l => l | None => [] end.

(** [data.slide_count || 0] *)
Definition number_or (a : option Z) (b : Z) : Z :=
  match a with
  | Some n => if n =? 0 then b else n
  | None => b
  end.

(** [data.fallback_used || false] *)
Definition bool_or (a : option bool) (b : bool) : bool :=
  match a with
  | Some x => x || b
  | None => b
  end.

(** [if (data.fallback_used)]: ToBoolean of a flag that may be missing. *)
Definition flag_set (a : option bool) : bool :=
  match a with
  | Some x => x
  | None => false
  end.

(** The object literal handed to [setPresentation]. *)
Definition deckOf (data : PresentationResponse.t) : PresentationData.t :=
  {| PresentationData.title :=
       or_else (PresentationResponse.title data) (lit "Generated Presentation");
     PresentationData.slides := slides_or_empty (PresentationResponse.slides data);
     PresentationData.total_slides := number_or (PresentationResponse.slide_count data) 0;
     PresentationData.theme := lit "professional" |}.

(** The [requestData] literal. *)
Definition requestData (form : FormData) : PresentationRequest.t :=
  {| PresentationRequest.session_id := lit "default";
     PresentationRequest.topic := or_undefined (Some (trim (topic form)));
     PresentationRequest.max_slides := slideCount form |}.

Definition generic_failure : jsstring := lit "Failed to generate presentation".

(** The async handler, with the way the request settles as a parameter.
    It is run as one step: it is started from the form, and while the
    request is in flight every control of the form is disabled, so no
    other handler runs between its two halves. *)
Definition generatePresentation (session : Session.t) (net : FetchOutcome)
  : Handler unit :=
  if negb (Session.active session) then
    emit (toast_error (lit "Please upload a PDF document first"))
  else
    setIsGenerating true ;;
    try_catch_finally
      (form <- read formData ;;
       response <- await_fetch net (lit "/api/generate-presentation")
                     {| method := lit "POST";
                        headers := [(lit "Content-Type", lit "application/json")];
                        body := JSON_stringify (requestData form) |} ;;
       parsed <- await_json response ;;
       data <- property_base parsed ;;
       if status_is_success data then
         setPresentation (Some (deckOf data)) ;;
         setPresentationUrl (or_undefined (PresentationResponse.presentation_url data)) ;;
         setFallbackUsed (bool_or (PresentationResponse.fallback_used data) false) ;;
         setCurrentSlide 0 ;;
         if flag_set (PresentationResponse.fallback_used data) then
           emit (toast_success
                   (lit "Presentation created in basic mode (AI quota exceeded)")
                   (Some 6000))
         else
           emit (toast_success (lit "Presentation generated successfully!") None)
       else
         emit (toast_error (or_else (PresentationResponse.message data) generic_failure)))
      (fun error =>
         let errorMessage :=
           or_else (or_undefined (response_data_detail error))
                   (or_else (error_message error) generic_failure) in
         emit (toast_error errorMessage) ;;
         emit (console_error (lit "Presentation generation error:") error))
      (setIsGenerating false).

(** ** exportPresentation *)

(** [array.map((x, index) => f x index)] *)
Fixpoint mapi_from {A B} (f : A -> nat -> B) (i : nat) (l : list A) : list B :=
  match l with
  | [] => []
  | x :: r => f x i :: mapi_from f (S i) r
  end.

Definition mapi {A B} (f : A -> nat -> B) (l : list A) : list B :=
  mapi_from f 0 l.

(** The bullet prefix: U+2022 and a space. *)
Definition bullet : jsstring := [8226%N; 32%N].

(** The template literal of the inner [map] callback. *)
Definition slideMarkdown (slide : PresentationSlide.t) (index : nat) : jsstring :=
  lit "## Slide " ++ Number_toString (Z.of_nat index + 1) ++ lit ": "
  ++ PresentationSlide.title slide ++ LF ++ LF
  ++ join LF (map (fun item => bullet ++ item) (PresentationSlide.content slide))
  ++ LF ++ LF ++ lit "---" ++ LF ++ LF.

(** The [content] constant of [exportPresentation]. *)
Definition markdownContent (p : PresentationData.t) : jsstring :=
  lit "# " ++ PresentationData.title p ++ LF ++ LF
  ++ join [] (mapi slideMarkdown (PresentationData.slides p)).

Definition exportPresentation : Handler unit :=
  p <- read presentation ;;
  match p with
  | None => ret tt
  | Some p =>
      emit (download
              (replaceWhiteSpaceRuns (lit "_") (PresentationData.title p) ++ lit ".md")
              (lit "text/markdown")
              (markdownContent p)) ;;
      emit (toast_success (lit "Presentation exported as Markdown!") None)
  end.

(** ** Inline handlers of the rendered controls *)

(** "New Presentation" *)
Definition onNewPresentation : Handler unit :=
  setPresentation None ;;
  setPresentationUrl None ;;
  setFallbackUsed false.

(** A thumbnail: [setCurrentSlide(index)] *)
Definition onThumbnail (index : nat) : Handler unit :=
  setCurrentSlide (Z.of_nat index).

(** "Previous": [setCurrentSlide(Math.max(0, currentSlide - 1))] *)
Definition onPrevious : Handler unit :=
  cur <- read currentSlide ;;
  setCurrentSlide (Z.max 0 (cur - 1)).

(** "Next":
    [setCurrentSlide(Math.min(presentation.slides.length - 1, currentSlide + 1))] *)
Definition onNext (p : PresentationData.t) : Handler unit :=
  cur <- read currentSlide ;;
  setCurrentSlide
    (Z.min (Z.of_nat (length (PresentationData.slides p)) - 1) (cur + 1)).

(** The topic input: [setFormData({ ...formData, topic: e.target.value })] *)
Definition onChangeTopic (v : jsstring) : Handler unit :=
  form <- read formData ;;
  setFormData {| topic := v; slideCount := slideCount form |}.

(** The slider's value arrives already parsed ([parseInt]). *)
Definition onChangeSlideCount (v : Z) : Handler unit :=
  form <- read formData ;;
  setFormData {| topic := topic form; slideCount := v |}.

(** ** The rendered controls and their dispatch *)

(** The controls that carry a handler ([onClick] or [onChange]), with
    what the handler receives.  The "Download PPTX" anchor of the deck
    view has none: it is a plain link to [presentationUrl]. *)
Inductive Event :=
| GenerateClick (net : FetchOutcome)
| TopicChange (v : jsstring)
| SlideCountChange (v : Z)
| ExportClick
| NewPresentationClick
| ThumbnailClick (index : nat)
| PreviousClick
| NextClick.

(** Whether the JSX returned for this state contains the control. Without
    an active session only the placeholder is returned; the form is
    rendered while [presentation] is [null], the deck view otherwise. *)
Definition rendered (session : Session.t) (st : State) (ev : Event) : bool :=
  Session.active session &&
  match presentation st, ev with
  | None, (GenerateClick _ | TopicChange _ | SlideCountChange _) => true
  | None, _ => false
  | Some p, (ExportClick | NewPresentationClick | PreviousClick | NextClick) => true
  | Some p, ThumbnailClick index =>
      (index <? length (PresentationData.slides p))%nat
  | Some p, _ => false
  end.

(** The [disabled] attribute of the control. *)
Definition disabled (st : State) (ev : Event) : bool :=
  match ev with
  | GenerateClick _ | TopicChange _ | SlideCountChange _ => isGenerating st
  | PreviousClick => currentSlide st =? 0
  | NextClick =>
      match presentation st with
      | Some p =>
          currentSlide st =? Z.of_nat (length (PresentationData.slides p)) - 1
      | None => false
      end
  | _ => false
  end.

(** The handler attached to the control. *)
Definition handler (session : Session.t) (st : State) (ev : Event) : Handler unit :=
  match ev with
  | GenerateClick net => generatePresentation session net
  | TopicChange v => onChangeTopic v
  | SlideCountChange v => onChangeSlideCount v
  | ExportClick => exportPresentation
  | NewPresentationClick => onNewPresentation
  | ThumbnailClick index => onThumbnail index
  | PreviousClick => onPrevious
  | NextClick =>
      match presentation st with
      | Some p => onNext p
      | None => ret tt
      end
  end.

(** Calling a handler unconditionally: it runs whenever its control
    exists, whatever the [disabled] attribute says. *)
Definition call (session : Session.t) (ev : Event) (st : State)
  : State * list Effect :=
  if rendered session st ev then
    let '(_, st', log) := handler session st ev st in (st', log)
  else (st, []).

(** A user interaction: a disabled control does not fire. *)
Definition interact (session : Session.t) (ev : Event) (st : State)
  : State * list Effect :=
  if disabled st ev then (st, []) else call session ev st.

(** A sequence of handler calls. *)
Fixpoint calls (session : Session.t) (evs : list Event) (st : State) : State :=
  match evs with
  | [] => st
  | ev :: r => calls session r (fst (call session ev st))
  end.

(** States the component can be in: from the initial state by user
    interactions, for any session and any behaviour of the network. *)
Inductive reachable : State -> Prop :=
| reachable_init : reachable initialState
| reachable_step session st ev :
    reachable st ->
    reachable (fst (interact session ev st)).

(** Running a handler: final state and effect log. *)
Definition run {A} (h : Handler A) (st : State) : State * list Effect :=
  let '(_, st', log) := h st in (st', log).

(** The presentation store: the deck and its two ancillary fields. *)
Definition store (st : State)
  : option PresentationData.t * option jsstring * bool :=
  (presentation st, presentationUrl st, fallbackUsed st).

Definition is_navigation (ev : Event) : bool :=
  match ev with PreviousClick | NextClick => true | _ => false end.

(** ** Reading the outcome of a generation call *)

(** What the [try] block ends with before the status test: the error that
    reaches [catch], or the parsed response. *)
Definition settle (net : FetchOutcome) : JsError + PresentationResponse.t :=
  match net with
  | fetch_rejects e => inl e
  | fetch_resolves (json_rejects e) => inl e
  | fetch_resolves (json_resolves None) => inl TypeError_null
  | fetch_resolves (json_resolves (Some d)) => inr d
  end.

(** The failure cases: a transport-level error (network error, payload
    that cannot be read) or a status other than "success". *)
Definition transport_error (net : FetchOutcome) : bool :=
  match settle net with inl _ => true | inr _ => false end.

Definition status_not_success (net : FetchOutcome) : bool :=
  match settle net with inl _ => false | inr d => negb (status_is_success d) end.

Definition generation_fails (net : FetchOutcome) : bool :=
  transport_error net || status_not_success net.

(** The diagnostics a failed call carries, best first: the service's
    [detail] and the error's own message for a caught error, the
    response's [message] for a status failure.  An empty string is no
    diagnostic. *)
Definition diagnostics (net : FetchOutcome) : list (option jsstring) :=
  match settle net with
  | inl e => [response_data_detail e; error_message e]
  | inr d => [PresentationResponse.message d]
  end.

Fixpoint first_present (l : list (option jsstring)) : option jsstring :=
  match l with
  | [] => None
  | Some (c :: s) :: _ => Some (c :: s)
  | _ :: r => first_present r
  end.

(** The message a failed call is expected to surface. *)
Definition expected_failure_message (net : FetchOutcome) : jsstring :=
  match first_present (diagnostics net) with
  | Some m => m
  | None => lit "Failed to generate presentation"
  end.

(** The diagnostic the service itself supplied, if any: the [detail] of
    an error response for a caught error, the [message] of the response
    for a status failure. *)
Definition service_diagnostic (net : FetchOutcome) : option jsstring :=
  match settle net with
  | inl e => or_undefined (response_data_detail e)
  | inr d => or_undefined (PresentationResponse.message d)
  end.

(** The message of a failed call in the words of the specification: the
    service-supplied diagnostic, the generic text when there is none. *)
Definition service_or_generic_message (net : FetchOutcome) : jsstring :=
  match service_diagnostic net with
  | Some m => m
  | None => lit "Failed to generate presentation"
  end.

Definition is_toast_error (x : Effect) : bool :=
  match x with toast_error _ => true | _ => false end.

Definition is_toast_success (x : Effect) : bool :=
  match x with toast_success _ _ => true | _ => false end.

Definition is_fetch (x : Effect) : bool :=
  match x with fetch _ _ => true | _ => false end.

(** ** Shapes of the results of [generatePresentation] *)

(** The state with the [isGenerating] cell set. *)
Definition withGenerating (b : bool) (st : State) : State :=
  {| isGenerating := b;
     presentation := presentation st;
     currentSlide := currentSlide st;
     presentationUrl := presentationUrl st;
     fallbackUsed := fallbackUsed st;
     formData := formData st |}.

(** The one network request of a generation call. *)
Definition theRequest (st : State) : Effect :=
  fetch (lit "/api/generate-presentation")
    {| method := lit "POST";
       headers := [(lit "Content-Type", lit "application/json")];
       body := JSON_stringify (requestData (formData st)) |}.

(** The [errorMessage] constant of the [catch] block. *)
Definition caughtMessage (e : JsError) : jsstring :=
  or_else (or_undefined (response_data_detail e))
          (or_else (error_message e) generic_failure).

(** ** The markdown document, line by line

    A second description of the exported text, following the wording of
    the specification rather than the template literals: the document is
    a sequence of lines, each ended by a line feed. *)

Definition line (s : jsstring) : jsstring := s ++ LF.

Definition blank_line : jsstring := line [].

Definition bullet_lines (content : list jsstring) : jsstring :=
  concat (map (fun item => line (bullet ++ item)) content).

(** Slide number [n] (counted from 1): heading, blank line, one line per
    content item, blank line, separator, blank line. *)
Definition slide_lines (slide : PresentationSlide.t) (n : nat) : jsstring :=
  line (lit "## Slide " ++ Number_toString (Z.of_nat n) ++ lit ": "
        ++ PresentationSlide.title slide)
  ++ blank_line
  ++ bullet_lines (PresentationSlide.content slide)
  ++ blank_line
  ++ line (lit "---")
  ++ blank_line.

Definition markdown_lines (p : PresentationData.t) : jsstring :=
  line (lit "# " ++ PresentationData.title p)
  ++ blank_line
  ++ concat (mapi (fun slide index => slide_lines slide (S index))
               (PresentationData.slides p)).

(** The same, except that a slide without content items gets one empty
    line where its items would stand. *)
Definition bullet_lines_or_empty (content : list jsstring) : jsstring :=
  match content with
  | [] => blank_line
  | _ :: _ => bullet_lines content
  end.

Definition slide_lines_joined (slide : PresentationSlide.t) (n : nat) : jsstring :=
  line (lit "## Slide " ++ Number_toString (Z.of_nat n) ++ lit ": "
        ++ PresentationSlide.title slide)
  ++ blank_line
  ++ bullet_lines_or_empty (PresentationSlide.content slide)
  ++ blank_line
  ++ line (lit "---")
  ++ blank_line.

Definition markdown_lines_joined (p : PresentationData.t) : jsstring :=
  line (lit "# " ++ PresentationData.title p)
  ++ blank_line
  ++ concat (mapi (fun slide index => slide_lines_joined slide (S index))
               (PresentationData.slides p)).

(** ** Sample inputs *)

Definition activeSession : Session.t :=
  {| Session.active := true;
     Session.file_info := lit "paper.pdf";
     Session.word_count := Some 1200;
     Session.page_count := 4 |}.

Definition noSession : Session.t :=
  {| Session.active := false;
     Session.file_info := [];
     Session.word_count := None;
     Session.page_count := 0 |}.

Definition slideA : PresentationSlide.t :=
  {| PresentationSlide.title := lit "Intro";
     PresentationSlide.content := [lit "a"; lit "b"] |}.

Definition slideB : PresentationSlide.t :=
  {| PresentationSlide.title := lit "End";
     PresentationSlide.content := [lit "c"] |}.

Definition slideBare : PresentationSlide.t :=
  {| PresentationSlide.title := lit "Bare";
     PresentationSlide.content := [] |}.

Definition successResponse (slides : list PresentationSlide.t) (count : Z)
  : PresentationResponse.t :=
  {| PresentationResponse.status := Some (lit "success");
     PresentationResponse.message := Some (lit "ok");
     PresentationResponse.presentation_url := None;
     PresentationResponse.slides := Some slides;
     PresentationResponse.slide_count := Some count;
     PresentationResponse.api_used := Some true;
     PresentationResponse.fallback_used := Some false;
     PresentationResponse.title := Some (lit "T") |}.

Definition errorResponse (msg : option jsstring) : PresentationResponse.t :=
  {| PresentationResponse.status := Some (lit "error");
     PresentationResponse.message := msg;
     PresentationResponse.presentation_url := None;
     PresentationResponse.slides := None;
     PresentationResponse.slide_count := None;
     PresentationResponse.api_used := None;
     PresentationResponse.fallback_used := None;
     PresentationResponse.title := None |}.

Definition resolves (d : PresentationResponse.t) : FetchOutcome :=
  fetch_resolves (json_resolves (Some d)).

Definition networkDown : FetchOutcome :=
  fetch_rejects {| response_data_detail := None;
                   error_message := Some (lit "Failed to fetch") |}.

(** The state after a response with [slides: []] and [slide_count: 0]
    has been received in the initial state. *)
Definition emptyDeckState : State :=
  fst (interact activeSession (GenerateClick (resolves (successResponse [] 0)))
         initialState).

(** Six slides, cursor on the last one. *)
Definition sixSlides : list PresentationSlide.t :=
  [slideA; slideB; slideA; slideB; slideA; slideB].

Definition atLastOfSix : State :=
  fst (call activeSession (ThumbnailClick 5)
         (fst (interact activeSession
                 (GenerateClick (resolves (successResponse sixSlides 6)))
                 initialState))).

(** The form filled with a topic of two spaces and the default count. *)
Definition blankTopicState : State :=
  fst (call activeSession (TopicChange (lit "  ")) initialState).

(** "New Presentation" pressed at the last of six slides: the deck is
    gone, the cursor cell still holds 5. *)
Definition clearedAtFive : State :=
  fst (call activeSession NewPresentationClick atLastOfSix).

(** ** What the deck view displays *)

(** [array[i]] for an index that may be out of range: [undefined] is
    [None]. *)
Definition Array_at {A} (l : list A) (i : Z) : option A :=
  if i <? 0 then None else nth_error l (Z.to_nat i).

(** [presentation.slides[currentSlide]], the slide the deck view shows;
    the view reads it with [?.], so a missing slide renders nothing. *)
Definition shownSlide (st : State) : option PresentationSlide.t :=
  match presentation st with
  | Some p => Array_at (PresentationData.slides p) (currentSlide st)
  | None => None
  end.

(** ** Vocabulary of the properties *)

(** The events that move the cursor within a deck. *)
Definition is_cursor_event (ev : Event) : bool :=
  match ev with
  | PreviousClick | NextClick | ThumbnailClick _ => true
  | _ => false
  end.

Definition is_form_event (ev : Event) : bool :=
  match ev with
  | TopicChange _ | SlideCountChange _ => true
  | _ => false
  end.

Definition is_toast (x : Effect) : bool :=
  is_toast_error x || is_toast_success x.

Definition is_console_error (x : Effect) : bool :=
  match x with console_error _ _ => true | _ => false end.

Definition count (f : Effect -> bool) (log : list Effect) : nat :=
  length (filter f log).

Definition no_white_space (s : jsstring) : bool :=
  forallb (fun c => negb (isWhiteSpace c)) s.

(** The cursor points at a slide of the deck; on a deck without slides it
    is 0 or -1. *)
Definition cursor_fits (st : State) : Prop :=
  match presentation st with
  | Some p =>
      match PresentationData.slides p with
      | [] => -1 <= currentSlide st <= 0
      | _ :: _ =>
          0 <= currentSlide st
          <= Z.of_nat (length (PresentationData.slides p)) - 1
      end
  | None => True
  end.

(** The state with the cursor cell set. *)
Definition withCursor (i : Z) (st : State) : State :=
  {| isGenerating := isGenerating st;
     presentation := presentation st;
     currentSlide := i;
     presentationUrl := presentationUrl st;
     fallbackUsed := fallbackUsed st;
     formData := formData st |}.

(** The state with the form cell set. *)
Definition withForm (f : FormData) (st : State) : State :=
  {| isGenerating := isGenerating st;
     presentation := presentation st;
     currentSlide := currentSlide st;
     presentationUrl := presentationUrl st;
     fallbackUsed := fallbackUsed st;
     formData := f |}.

(** The state "New Presentation" leaves. *)
Definition cleared (st : State) : State :=
  {| isGenerating := isGenerating st;
     presentation := None;
     currentSlide := currentSlide st;
     presentationUrl := None;
     fallbackUsed := false;
     formData := formData st |}.

(** The state the success branch leaves. *)
Definition stored (d : PresentationResponse.t) (st : State) : State :=
  {| isGenerating := false;
     presentation := Some (deckOf d);
     currentSlide := 0;
     presentationUrl := or_undefined (PresentationResponse.presentation_url d);
     fallbackUsed := bool_or (PresentationResponse.fallback_used d) false;
     formData := formData st |}.

(** The response with its [fallback_used] member replaced. *)
Definition withFallback (f : option bool) (d : PresentationResponse.t)
  : PresentationResponse.t :=
  {| PresentationResponse.status := PresentationResponse.status d;
     PresentationResponse.message := PresentationResponse.message d;
     PresentationResponse.presentation_url := PresentationResponse.presentation_url d;
     PresentationResponse.slides := PresentationResponse.slides d;
     PresentationResponse.slide_count := PresentationResponse.slide_count d;
     PresentationResponse.api_used := PresentationResponse.api_used d;
     PresentationResponse.fallback_used := f;
     PresentationResponse.title := PresentationResponse.title d |}.

(** The states a handler call can lead to, event by event. *)
Inductive call_result (session : Session.t) (ev : Event) (st : State)
  : State -> Prop :=
| result_same : call_result session ev st st
| result_idle :
    (exists net, ev = GenerateClick net) ->
    presentation st = None ->
    call_result session ev st (withGenerating false st)
| result_stored d :
    (exists net, ev = GenerateClick net) ->
    presentation st = None ->
    status_is_success d = true ->
    call_result session ev st (stored d st)
| result_form f :
    is_form_event ev = true ->
    presentation st = None ->
    call_result session ev st (withForm f st)
| result_cleared :
    ev = NewPresentationClick ->
    call_result session ev st (cleared st)
| result_thumbnail p index :
    ev = ThumbnailClick index ->
    presentation st = Some p ->
    (index < length (PresentationData.slides p))%nat ->
    call_result session ev st (withCursor (Z.of_nat index) st)
| result_previous p :
    ev = PreviousClick ->
    presentation st = Some p ->
    call_result session ev st (withCursor (Z.max 0 (currentSlide st - 1)) st)
| result_next p :
    ev = NextClick ->
    presentation st = Some p ->
    call_result session ev st
      (withCursor (Z.min (Z.of_nat (length (PresentationData.slides p)) - 1)
                     (currentSlide st + 1)) st).

(** A deck with the given slides, the other fields as a response with
    title "T" gives them. *)
Definition deckWith (slides : list PresentationSlide.t) : PresentationData.t :=
  {| PresentationData.title := lit "T";
     PresentationData.slides := slides;
     PresentationData.total_slides := Z.of_nat (length slides);
     PresentationData.theme := lit "professional" |}.

(** The deck view on six slides, cursor on the third. *)
Definition atThirdOfSix : State :=
  fst (call activeSession (ThumbnailClick 2) atLastOfSix).

(** The form filled with a topic that has white space around it. *)
Definition paddedTopicState : State :=
  fst (call activeSession (TopicChange (lit "  AI  safety ")) initialState).

(** ** Histories of responses *)

(** The slide count a response reports is the length of the slide list it
    carries (a missing count read as 0, a missing list as empty). *)
Definition well_counted (d : PresentationResponse.t) : Prop :=
  number_or (PresentationResponse.slide_count d) 0
  = Z.of_nat (length (slides_or_empty (PresentationResponse.slides d))).

(** The success response an interaction brings, if it brings one,
    satisfies [P]. *)
Definition answer_satisfies (P : PresentationResponse.t -> Prop) (ev : Event)
  : Prop :=
  match ev with
  | GenerateClick net =>
      match settle net with
      | inr d => status_is_success d = true -> P d
      | inl _ => True
      end
  | _ => True
  end.

(** The states the component reaches when every success response the
    service sends along the way satisfies [P]. *)
Inductive reachable_with (P : PresentationResponse.t -> Prop) : State -> Prop :=
| reachable_with_init : reachable_with P initialState
| reachable_with_step session st ev :
    reachable_with P st ->
    answer_satisfies P ev ->
    reachable_with P (fst (interact session ev st)).

(** ** Tests of the embedding on concrete inputs *)

Example trim_spaces : trim (lit "  ") = [].
Proof. reflexivity. Qed.

Example trim_inner : trim (lit "  a b  ") = lit "a b".
Proof. reflexivity. Qed.

Example join_three : join LF [lit "a"; lit "b"; lit "c"] = lit "a" ++ LF ++ lit "b" ++ LF ++ lit "c".
Proof. reflexivity. Qed.

Example filename_runs :
  replaceWhiteSpaceRuns (lit "_") (lit "My  big deck") = lit "My_big_deck".
Proof. reflexivity. Qed.

Example number_text : Number_toString 12 = lit "12".
Proof. reflexivity. Qed.

Example white_space_code_units :
  map isWhiteSpace [9; 13; 14; 32; 160; 8200; 8203; 65279]%N
  = [true; true; false; true; true; true; false; true].
Proof. reflexivity. Qed.

Example empty_deck_state :
  presentation emptyDeckState
  = Some {| PresentationData.title := lit "T";
            PresentationData.slides := [];
            PresentationData.total_slides := 0;
            PresentationData.theme := lit "professional" |}
  /\ currentSlide emptyDeckState = 0.
Proof. split; reflexivity. Qed.

Example at_last_of_six : currentSlide atLastOfSix = 5.
Proof. reflexivity. Qed.

(** Scenario of the specification: three [next()] at the last of six
    slides leave the cursor at 5. *)
Example six_slides_next_thrice :
  currentSlide (calls activeSession [NextClick; NextClick; NextClick] atLastOfSix) = 5.
Proof. reflexivity. Qed.

Example export_two_slides :
  markdownContent
    {| PresentationData.title := lit "T";
       PresentationData.slides := [slideA; slideB];
       PresentationData.total_slides := 2;
       PresentationData.theme := lit "professional" |}
  = lit "# T" ++ LF ++ LF
    ++ lit "## Slide 1: Intro" ++ LF ++ LF
    ++ bullet ++ lit "a" ++ LF ++ bullet ++ lit "b" ++ LF ++ LF
    ++ lit "---" ++ LF ++ LF
    ++ lit "## Slide 2: End" ++ LF ++ LF
    ++ bullet ++ lit "c" ++ LF ++ LF
    ++ lit "---" ++ LF ++ LF.
Proof. reflexivity. Qed.

(** ** Equations of [generatePresentation] *)

Lemma generate_inactive session net st :
  Session.active session = false ->
  generatePresentation session net st
  = (Normal tt, st, [toast_error (lit "Please upload a PDF document first")]).
Proof.
  intros H. unfold generatePresentation. rewrite H. reflexivity.
Qed.

Lemma generate_caught session net st e :
  Session.active session = true ->
  settle net = inl e ->
  generatePresentation session net st
  = (Normal tt, withGenerating false st,
     [theRequest st; toast_error (caughtMessage e);
      console_error (lit "Presentation generation error:") e]).
Proof.
  intros H Hs. unfold generatePresentation. rewrite H.
  destruct net as [e' | [e' | [d |]]]; cbn in Hs; inversion Hs; subst;
    reflexivity.
Qed.

Lemma generate_status_failure session net st d :
  Session.active session = true ->
  settle net = inr d ->
  status_is_success d = false ->
  generatePresentation session net st
  = (Normal tt, withGenerating false st,
     [theRequest st;
      toast_error (or_else (PresentationResponse.message d) generic_failure)]).
Proof.
  intros H Hs Hd. unfold generatePresentation. rewrite H.
  destruct net as [e' | [e' | [d' |]]]; cbn in Hs; inversion Hs; subst.
  cbv [negb try_catch_finally bind setIsGenerating update read await_fetch
       await_json property_base emit ret].
  cbn. rewrite Hd. reflexivity.
Qed.

Lemma generate_success session net st d :
  Session.active session = true ->
  settle net = inr d ->
  status_is_success d = true ->
  generatePresentation session net st
  = (Normal tt,
     {| isGenerating := false;
        presentation := Some (deckOf d);
        currentSlide := 0;
        presentationUrl := or_undefined (PresentationResponse.presentation_url d);
        fallbackUsed := bool_or (PresentationResponse.fallback_used d) false;
        formData := formData st |},
     [theRequest st;
      if flag_set (PresentationResponse.fallback_used d)
      then toast_success
             (lit "Presentation created in basic mode (AI quota exceeded)")
             (Some 6000)
      else toast_success (lit "Presentation generated successfully!") None]).
Proof.
  intros H Hs Hd. unfold generatePresentation. rewrite H.
  destruct net as [e' | [e' | [d' |]]]; cbn in Hs; inversion Hs; subst.
  cbv [negb try_catch_finally bind setIsGenerating update read await_fetch
       await_json property_base emit ret].
  cbn. rewrite Hd.
  destruct (flag_set (PresentationResponse.fallback_used d)); reflexivity.
Qed.

(** Case analysis on how a call with an active session ends: the error
    caught, the success branch, the status failure; the call is rewritten
    to its result in each case. *)
Ltac generate_cases session net st H :=
  let e := fresh "e" in
  let d := fresh "d" in
  let Hs := fresh "Hs" in
  let Hd := fresh "Hd" in
  destruct (settle net) as [e | d] eqn:Hs;
  [ rewrite (generate_caught session net st e H Hs)
  | destruct (status_is_success d) eqn:Hd;
    [ rewrite (generate_success session net st d H Hs Hd)
    | rewrite (generate_status_failure session net st d H Hs Hd) ] ].

(** ** The session gate *)

(** C9: when no document session is active, a generation attempt only
    surfaces the "upload a document" notice: the effect log holds that
    one toast and no network request, and the whole component state is
    the one before the call. *)
Theorem generate_without_session_short_circuits :
  forall (session : Session.t) (net : FetchOutcome) (st : State),
    Session.active session = false ->
    run (generatePresentation session net) st
    = (st, [toast_error (lit "Please upload a PDF document first")])
    /\ existsb is_fetch (snd (run (generatePresentation session net) st)) = false.
Proof.
  intros session net st H. unfold run.
  rewrite (generate_inactive session net st H). split; reflexivity.
Qed.

Lemma generate_without_session_short_circuits_witness :
  run (generatePresentation noSession networkDown) atLastOfSix
  = (atLastOfSix, [toast_error (lit "Please upload a PDF document first")])
  /\ existsb is_fetch
       (snd (run (generatePresentation noSession networkDown) atLastOfSix)) = false.
Proof.
  apply (generate_without_session_short_circuits noSession networkDown atLastOfSix).
  reflexivity.
Defined.

(** ** The request *)

Lemma trimStart_white s : forallb isWhiteSpace s = true -> trimStart s = [].
Proof.
  induction s as [| c s IH]; cbn; intros H; [reflexivity |].
  apply andb_true_iff in H. destruct H as [Hc Hs]. rewrite Hc. auto.
Qed.

Lemma trim_white s : forallb isWhiteSpace s = true -> trim s = [].
Proof.
  intros H. unfold trim, trimEnd. rewrite (trimStart_white s H). reflexivity.
Qed.

Lemma eqb_refl s : JS.eqb s s = true.
Proof.
  unfold JS.eqb. destruct (list_eq_dec N.eq_dec s s); congruence.
Qed.

Lemma request_logged session net st :
  Session.active session = true ->
  exists rest, snd (run (generatePresentation session net) st) = theRequest st :: rest.
Proof.
  intros H. unfold run.
  generate_cases session net st H; eexists; reflexivity.
Qed.

Lemma only_request_logged session net st url init :
  In (fetch url init) (snd (run (generatePresentation session net) st)) ->
  fetch url init = theRequest st.
Proof.
  unfold run.
  destruct (Session.active session) eqn:H.
  - generate_cases session net st H; cbn.
    + intros [E | [E | [E | []]]]; congruence.
    + destruct (flag_set _); intros [E | [E | []]]; congruence.
    + intros [E | [E | []]]; congruence.
  - rewrite (generate_inactive session net st H). cbn.
    intros [E | []]; congruence.
Qed.

Lemma body_without_topic form :
  trim (topic form) = [] ->
  JSON_stringify (requestData form)
  = [(lit "session_id", JString (lit "default"));
     (lit "max_slides", JNumber (slideCount form))].
Proof.
  intros E. unfold JSON_stringify, requestData, properties. cbn.
  rewrite E. reflexivity.
Qed.

Lemma body_with_topic form :
  trim (topic form) <> [] ->
  JSON_stringify (requestData form)
  = [(lit "session_id", JString (lit "default"));
     (lit "topic", JString (trim (topic form)));
     (lit "max_slides", JNumber (slideCount form))].
Proof.
  intros E. unfold JSON_stringify, requestData, properties. cbn.
  destruct (trim (topic form)); [congruence | reflexivity].
Qed.

(** C5: with the slider value in [3,15] and any topic text, the request
    that goes out carries [max_slides] equal to the slider value; its
    body has no [topic] member when the trimmed topic is empty (so for an
    empty or all-white-space topic), and carries the trimmed topic
    otherwise. *)
Theorem request_carries_max_slides_and_topic :
  forall (session : Session.t) (net : FetchOutcome) (st : State),
    Session.active session = true ->
    3 <= slideCount (formData st) <= 15 ->
    exists url init rest,
      snd (run (generatePresentation session net) st) = fetch url init :: rest
      /\ member (lit "max_slides") (body init)
         = Some (JNumber (slideCount (formData st)))
      /\ (trim (topic (formData st)) = [] ->
          member (lit "topic") (body init) = None
          /\ map fst (body init) = [lit "session_id"; lit "max_slides"])
      /\ (forallb isWhiteSpace (topic (formData st)) = true ->
          member (lit "topic") (body init) = None)
      /\ (trim (topic (formData st)) <> [] ->
          member (lit "topic") (body init)
          = Some (JString (trim (topic (formData st))))).
Proof.
  intros session net st H _.
  destruct (request_logged session net st H) as [rest Hr].
  exists (lit "/api/generate-presentation").
  eexists. exists rest. split; [exact Hr |].
  cbn [body].
  destruct (list_eq_dec N.eq_dec (trim (topic (formData st))) []) as [E | E].
  - rewrite (body_without_topic _ E).
    split; [reflexivity |].
    split; [intros _; split; reflexivity |].
    split; [intros _; reflexivity |].
    intros Hx. congruence.
  - rewrite (body_with_topic _ E).
    split; [reflexivity |].
    split; [intros Hx; congruence |].
    split; [intros Hx; apply trim_white in Hx; congruence |].
    intros _. reflexivity.
Qed.

Lemma request_carries_max_slides_and_topic_witness :
  exists url init rest,
    snd (run (generatePresentation activeSession networkDown) blankTopicState)
    = fetch url init :: rest
    /\ member (lit "max_slides") (body init) = Some (JNumber 8)
    /\ (trim (lit "  ") = [] ->
        member (lit "topic") (body init) = None
        /\ map fst (body init) = [lit "session_id"; lit "max_slides"])
    /\ (forallb isWhiteSpace (lit "  ") = true ->
        member (lit "topic") (body init) = None)
    /\ (trim (lit "  ") <> [] ->
        member (lit "topic") (body init) = Some (JString (trim (lit "  ")))).
Proof.
  apply (request_carries_max_slides_and_topic activeSession networkDown
           blankTopicState).
  - reflexivity.
  - cbn. lia.
Defined.

(** Scenario of the specification: topic of two spaces, eight slides. *)
Example blank_topic_request :
  snd (run (generatePresentation activeSession networkDown) blankTopicState)
  = [fetch (lit "/api/generate-presentation")
       {| method := lit "POST";
          headers := [(lit "Content-Type", lit "application/json")];
          body := [(lit "session_id", JString (lit "default"));
                   (lit "max_slides", JNumber 8)] |};
     toast_error (lit "Failed to fetch");
     console_error (lit "Presentation generation error:")
       {| response_data_detail := None;
          error_message := Some (lit "Failed to fetch") |}].
Proof. reflexivity. Qed.

(** C10: whatever the session, the form and the network do, every
    request a generation call sends names the session "default"; with an
    active session such a request is sent. *)
Theorem request_session_id_is_default :
  forall (session : Session.t) (net : FetchOutcome) (st : State),
    (forall url init,
        In (fetch url init) (snd (run (generatePresentation session net) st)) ->
        member (lit "session_id") (body init) = Some (JString (lit "default")))
    /\ (Session.active session = true ->
        existsb is_fetch (snd (run (generatePresentation session net) st)) = true).
Proof.
  intros session net st. split.
  - intros url init Hin.
    apply only_request_logged in Hin. unfold theRequest in Hin.
    injection Hin as _ Hinit. subst init. reflexivity.
  - intros H. destruct (request_logged session net st H) as [rest Hr].
    rewrite Hr. reflexivity.
Qed.

Lemma request_session_id_is_default_witness :
  member (lit "session_id")
    (body {| method := lit "POST";
             headers := [(lit "Content-Type", lit "application/json")];
             body := [(lit "session_id", JString (lit "default"));
                      (lit "max_slides", JNumber 8)] |})
  = Some (JString (lit "default"))
  /\ existsb is_fetch
       (snd (run (generatePresentation activeSession networkDown) blankTopicState))
     = true.
Proof.
  split.
  - apply (proj1 (request_session_id_is_default activeSession networkDown
                    blankTopicState)
             (lit "/api/generate-presentation")).
    left. reflexivity.
  - apply (proj2 (request_session_id_is_default activeSession networkDown
                    blankTopicState)).
    reflexivity.
Defined.

(** ** Outcomes of a generation call *)

Lemma first_present_or_else a b c :
  match first_present [a; b] with Some m => m | None => c end
  = or_else (or_undefined a) (or_else b c).
Proof.
  destruct a as [[| x a] |], b as [[| y b] |]; reflexivity.
Qed.

Lemma first_present_single a c :
  match first_present [a] with Some m => m | None => c end = or_else a c.
Proof.
  destruct a as [[| x a] |]; reflexivity.
Qed.

(** C3: when the generation call fails (the request or the reading of
    its body throws, or the status is not "success"), the deck, the
    artifact URL and the fallback flag are the ones held before the call,
    and so is the cursor: no deck is stored and an earlier one stays. *)
Theorem failed_generation_keeps_store :
  forall (session : Session.t) (net : FetchOutcome) (st : State),
    generation_fails net = true ->
    let st' := fst (run (generatePresentation session net) st) in
    store st' = store st
    /\ presentation st' = presentation st
    /\ presentationUrl st' = presentationUrl st
    /\ fallbackUsed st' = fallbackUsed st
    /\ currentSlide st' = currentSlide st.
Proof.
  intros session net st Hf. unfold run.
  destruct (Session.active session) eqn:H.
  - unfold generation_fails, transport_error, status_not_success in Hf.
    generate_cases session net st H; cbn; auto.
    cbn in Hf. discriminate.
  - rewrite (generate_inactive session net st H). cbn. auto.
Qed.

Lemma failed_generation_keeps_store_witness :
  let st' :=
    fst (run (generatePresentation activeSession
                (resolves (errorResponse (Some (lit "quota exceeded")))))
           atLastOfSix) in
  store st' = store atLastOfSix
  /\ presentation st' = presentation atLastOfSix
  /\ presentationUrl st' = presentationUrl atLastOfSix
  /\ fallbackUsed st' = fallbackUsed atLastOfSix
  /\ currentSlide st' = currentSlide atLastOfSix.
Proof.
  apply (failed_generation_keeps_store activeSession
           (resolves (errorResponse (Some (lit "quota exceeded")))) atLastOfSix).
  reflexivity.
Defined.

(** Scenario of the specification: an error status with a message leaves
    the store empty and shows the message as it came. *)
Example quota_exceeded :
  run (generatePresentation activeSession
         (resolves (errorResponse (Some (lit "quota exceeded"))))) initialState
  = (initialState, [theRequest initialState; toast_error (lit "quota exceeded")]).
Proof. reflexivity. Qed.

Lemma first_present_prefers a b m :
  or_undefined a = Some m -> first_present (a :: b) = Some m.
Proof.
  destruct a as [[| x a] |]; cbn; intros E; try discriminate.
  exact E.
Qed.

(** C6 as the code has it: with an active session, a generation call
    ends in an error notice exactly when the request or the reading of
    its body threw or the response status is not "success", and in a
    success notice otherwise.  The error notice shows the service's
    diagnostic as it came when there is one; failing that, the message
    of the caught error; failing that, the generic text. *)
Theorem failure_exactly_on_error_or_status :
  forall (session : Session.t) (net : FetchOutcome) (st : State),
    Session.active session = true ->
    let log := snd (run (generatePresentation session net) st) in
    (existsb is_toast_error log = true
     <-> transport_error net = true \/ status_not_success net = true)
    /\ (existsb is_toast_success log = negb (existsb is_toast_error log))
    /\ (forall msg,
           In (toast_error msg) log ->
           msg = expected_failure_message net
           /\ (forall m, service_diagnostic net = Some m -> msg = m)
           /\ (first_present (diagnostics net) = None ->
               msg = lit "Failed to generate presentation")).
Proof.
  intros session net st H. unfold run.
  assert (Hpref : forall m, service_diagnostic net = Some m ->
                            expected_failure_message net = m).
  { intros m. unfold service_diagnostic, expected_failure_message, diagnostics.
    destruct (settle net) as [e | d]; intros Hm;
      now rewrite (first_present_prefers _ _ m Hm). }
  assert (Hgen : first_present (diagnostics net) = None ->
                 expected_failure_message net
                 = lit "Failed to generate presentation").
  { intros Hn. unfold expected_failure_message. now rewrite Hn. }
  assert (Hmsg : forall msg, msg = expected_failure_message net ->
                 msg = expected_failure_message net
                 /\ (forall m, service_diagnostic net = Some m -> msg = m)
                 /\ (first_present (diagnostics net) = None ->
                     msg = lit "Failed to generate presentation")).
  { intros msg ->. auto. }
  revert Hmsg. clear Hpref Hgen.
  unfold transport_error, status_not_success, expected_failure_message,
    diagnostics.
  intros Hmsg.
  generate_cases session net st H; cbn.
  - split; [split; auto |]. split; [reflexivity |].
    intros msg [E | [E | [E | []]]]; try discriminate.
    apply Hmsg.
    injection E as <-. unfold caughtMessage, generic_failure.
    symmetry. apply first_present_or_else.
  - destruct (flag_set _); cbn;
      (split; [split; [discriminate | intros [E | E]; discriminate] |]);
      (split; [reflexivity |]);
      intros msg [E | [E | []]]; discriminate.
  - split; [split; auto |]. split; [reflexivity |].
    intros msg [E | [E | []]]; try discriminate.
    apply Hmsg.
    injection E as <-. unfold generic_failure.
    symmetry. apply first_present_single.
Qed.

Lemma failure_exactly_on_error_or_status_witness :
  let net := resolves (errorResponse None) in
  let log := snd (run (generatePresentation activeSession net) initialState) in
  (existsb is_toast_error log = true
   <-> transport_error net = true \/ status_not_success net = true)
  /\ (existsb is_toast_success log = negb (existsb is_toast_error log))
  /\ (forall msg,
         In (toast_error msg) log ->
         msg = expected_failure_message net
         /\ (forall m, service_diagnostic net = Some m -> msg = m)
         /\ (first_present (diagnostics net) = None ->
             msg = lit "Failed to generate presentation")).
Proof.
  apply (failure_exactly_on_error_or_status activeSession
           (resolves (errorResponse None)) initialState).
  reflexivity.
Defined.

(** C6 fails as stated: when the network is down the service supplied no
    diagnostic, yet the notice is the error's own "Failed to fetch" and
    not the generic text. *)
Lemma network_error_message_is_not_generic :
  service_diagnostic networkDown = None
  /\ service_or_generic_message networkDown = lit "Failed to generate presentation"
  /\ snd (run (generatePresentation activeSession networkDown) initialState)
     = [theRequest initialState;
        toast_error (lit "Failed to fetch");
        console_error (lit "Presentation generation error:")
          {| response_data_detail := None;
             error_message := Some (lit "Failed to fetch") |}]
  /\ ~ (forall session net st msg,
          Session.active session = true ->
          In (toast_error msg) (snd (run (generatePresentation session net) st)) ->
          msg = service_or_generic_message net).
Proof.
  split; [reflexivity |]. split; [reflexivity |]. split; [reflexivity |].
  intros Hall.
  specialize (Hall activeSession networkDown initialState (lit "Failed to fetch")
                eq_refl).
  assert (Hin : In (toast_error (lit "Failed to fetch"))
                  (snd (run (generatePresentation activeSession networkDown)
                          initialState))).
  { right. left. reflexivity. }
  specialize (Hall Hin). cbv in Hall. discriminate.
Qed.

Example generic_message_shown :
  snd (run (generatePresentation activeSession (resolves (errorResponse None)))
         initialState)
  = [theRequest initialState; toast_error (lit "Failed to generate presentation")].
Proof. reflexivity. Qed.

Example null_body_is_a_failure :
  existsb is_toast_error
    (snd (run (generatePresentation activeSession
                 (fetch_resolves (json_resolves None))) initialState)) = true.
Proof. reflexivity. Qed.



Example success_from_bare_response :
  fst (run (generatePresentation activeSession
              (resolves
                 {| PresentationResponse.status := Some (lit "success");
                    PresentationResponse.message := None;
                    PresentationResponse.presentation_url := None;
                    PresentationResponse.slides := None;
                    PresentationResponse.slide_count := None;
                    PresentationResponse.api_used := None;
                    PresentationResponse.fallback_used := None;
                    PresentationResponse.title := None |})) atLastOfSix)
  = {| isGenerating := false;
       presentation :=
         Some {| PresentationData.title := lit "Generated Presentation";
                 PresentationData.slides := [];
                 PresentationData.total_slides := 0;
                 PresentationData.theme := lit "professional" |};
       currentSlide := 0;
       presentationUrl := None;
       fallbackUsed := false;
       formData := formData atLastOfSix |}.
Proof. reflexivity. Qed.

(** ** Who writes the deck *)

(** A handler call leaves the deck as it is, clears it, or stores the deck
    built from a success response and puts the cursor on its first slide. *)
Lemma call_presentation session ev st :
  let st' := fst (call session ev st) in
  presentation st' = presentation st
  \/ presentation st' = None
  \/ exists data,
       status_is_success data = true
       /\ presentation st' = Some (deckOf data)
       /\ currentSlide st' = 0.
Proof.
  unfold call. destruct (rendered session st ev) eqn:Hr; [| left; reflexivity].
  destruct ev; cbn [handler].
  - destruct (Session.active session) eqn:H.
    + generate_cases session net st H.
      * left. reflexivity.
      * right. right. eexists. cbn. eauto.
      * left. reflexivity.
    + rewrite (generate_inactive session net st H). left. reflexivity.
  - left. reflexivity.
  - left. reflexivity.
  - left. unfold exportPresentation, bind, read.
    destruct (presentation st) eqn:E; cbn; congruence.
  - right. left. reflexivity.
  - left. reflexivity.
  - left. reflexivity.
  - left. destruct (presentation st) eqn:E; cbn; congruence.
Qed.

Lemma interact_presentation session ev st :
  let st' := fst (interact session ev st) in
  presentation st' = presentation st
  \/ presentation st' = None
  \/ exists data,
       status_is_success data = true
       /\ presentation st' = Some (deckOf data)
       /\ currentSlide st' = 0.
Proof.
  unfold interact. destruct (disabled st ev); [left; reflexivity |].
  apply call_presentation.
Qed.

(** C8: a success response stores its deck and puts the cursor at 0
    whatever the cursor was; and any handler call after which the store
    holds a deck it did not hold before leaves the cursor at 0. *)
Theorem replacing_the_deck_resets_cursor :
  forall (session : Session.t) (st : State),
    (forall data,
        Session.active session = true ->
        status_is_success data = true ->
        let st' := fst (run (generatePresentation session (resolves data)) st) in
        presentation st' = Some (deckOf data) /\ currentSlide st' = 0)
    /\ (forall ev deck,
           presentation (fst (call session ev st)) = Some deck ->
           presentation st <> Some deck ->
           currentSlide (fst (call session ev st)) = 0).
Proof.
  intros session st. split.
  - intros data H Hd. unfold run.
    rewrite (generate_success session (resolves data) st data H eq_refl Hd).
    split; reflexivity.
  - intros ev deck Hp Hne.
    destruct (call_presentation session ev st) as [E | [E | [d [_ [_ E]]]]].
    + congruence.
    + congruence.
    + exact E.
Qed.

Lemma replacing_the_deck_resets_cursor_witness :
  currentSlide clearedAtFive = 5
  /\ (let st' := fst (run (generatePresentation activeSession
                             (resolves (successResponse [slideA; slideB] 2)))
                        clearedAtFive) in
      presentation st' = Some (deckOf (successResponse [slideA; slideB] 2))
      /\ currentSlide st' = 0)
  /\ currentSlide
       (fst (call activeSession
               (GenerateClick (resolves (successResponse [slideA; slideB] 2)))
               clearedAtFive)) = 0.
Proof.
  split; [reflexivity |]. split.
  - apply (proj1 (replacing_the_deck_resets_cursor activeSession clearedAtFive));
      reflexivity.
  - apply (proj2 (replacing_the_deck_resets_cursor activeSession clearedAtFive)
             (GenerateClick (resolves (successResponse [slideA; slideB] 2)))
             (deckOf (successResponse [slideA; slideB] 2))).
    + reflexivity.
    + discriminate.
Defined.

(** ** The slide count of the stored deck *)

Lemma reachable_deck_from_response st :
  reachable st ->
  forall deck, presentation st = Some deck ->
  exists data, status_is_success data = true /\ deck = deckOf data.
Proof.
  induction 1 as [| session st ev Hr IH]; intros deck Hp.
  - discriminate.
  - destruct (interact_presentation session ev st) as [E | [E | [d [Hd [E _]]]]].
    + apply IH. congruence.
    + congruence.
    + exists d. split; [exact Hd | congruence].
Qed.

(** A handler call leaves the deck as it is, clears it, or stores the deck
    built from the success response this very call received. *)
Lemma call_presentation_from session ev st :
  let st' := fst (call session ev st) in
  presentation st' = presentation st
  \/ presentation st' = None
  \/ exists net data,
       ev = GenerateClick net
       /\ settle net = inr data
       /\ status_is_success data = true
       /\ presentation st' = Some (deckOf data).
Proof.
  unfold call. destruct (rendered session st ev) eqn:Hr; [| left; reflexivity].
  destruct ev; cbn [handler].
  - destruct (Session.active session) eqn:H.
    + destruct (settle net) as [e | d] eqn:Hs.
      * rewrite (generate_caught session net st e H Hs). left. reflexivity.
      * destruct (status_is_success d) eqn:Hd.
        -- rewrite (generate_success session net st d H Hs Hd).
           right. right. exists net, d. cbn. rewrite Hs. auto.
        -- rewrite (generate_status_failure session net st d H Hs Hd).
           left. reflexivity.
    + rewrite (generate_inactive session net st H). left. reflexivity.
  - left. reflexivity.
  - left. reflexivity.
  - left. unfold exportPresentation, bind, read.
    destruct (presentation st) eqn:E; cbn; congruence.
  - right. left. reflexivity.
  - left. reflexivity.
  - left. reflexivity.
  - left. destruct (presentation st) eqn:E; cbn; congruence.
Qed.

Lemma interact_presentation_from session ev st :
  let st' := fst (interact session ev st) in
  presentation st' = presentation st
  \/ presentation st' = None
  \/ exists net data,
       ev = GenerateClick net
       /\ settle net = inr data
       /\ status_is_success data = true
       /\ presentation st' = Some (deckOf data).
Proof.
  unfold interact. destruct (disabled st ev); [left; reflexivity |].
  apply call_presentation_from.
Qed.

(** A stored deck is the deck of one of the success responses received. *)
Lemma stored_deck_from_received (P : PresentationResponse.t -> Prop) st :
  reachable_with P st ->
  forall deck, presentation st = Some deck ->
  exists data, P data /\ status_is_success data = true /\ deck = deckOf data.
Proof.
  induction 1 as [| session st ev Hr IH Hans]; intros deck Hp.
  - discriminate.
  - destruct (interact_presentation_from session ev st)
      as [E | [E | [net [d [Hev [Hs [Hd E]]]]]]].
    + apply IH. congruence.
    + congruence.
    + subst ev. cbn in Hans. rewrite Hs in Hans.
      exists d. split; [exact (Hans Hd) |]. split; [exact Hd | congruence].
Qed.

Lemma deck_count_iff_well_counted data :
  PresentationData.total_slides (deckOf data)
  = Z.of_nat (length (PresentationData.slides (deckOf data)))
  <-> well_counted data.
Proof.
  unfold well_counted. cbn. reflexivity.
Qed.

(** C4 as the code has it: the deck a success response puts in the store
    has the slide list and the slide count that response reported (empty
    list, 0 when missing), so its count equals the number of its slides
    exactly when the response's count equals the length of the response's
    list.  Over a whole history, whatever holds of every success response
    received holds of the response a stored deck was built from; so every
    stored deck has its count equal to the number of its slides when
    every success response received was counted right. *)
Theorem stored_count_is_reported_count :
  (forall (session : Session.t) (st : State) (data : PresentationResponse.t),
      Session.active session = true ->
      status_is_success data = true ->
      exists deck,
        presentation (fst (run (generatePresentation session (resolves data)) st))
        = Some deck
        /\ PresentationData.slides deck
           = slides_or_empty (PresentationResponse.slides data)
        /\ PresentationData.total_slides deck
           = number_or (PresentationResponse.slide_count data) 0
        /\ (PresentationData.total_slides deck
            = Z.of_nat (length (PresentationData.slides deck))
            <-> well_counted data))
  /\ (forall (P : PresentationResponse.t -> Prop) (st : State)
             (deck : PresentationData.t),
         reachable_with P st ->
         presentation st = Some deck ->
         exists data,
           P data
           /\ status_is_success data = true
           /\ PresentationData.slides deck
              = slides_or_empty (PresentationResponse.slides data)
           /\ PresentationData.total_slides deck
              = number_or (PresentationResponse.slide_count data) 0)
  /\ (forall (st : State) (deck : PresentationData.t),
         reachable_with well_counted st ->
         presentation st = Some deck ->
         PresentationData.total_slides deck
         = Z.of_nat (length (PresentationData.slides deck))).
Proof.
  split; [| split].
  - intros session st data H Hd. unfold run.
    rewrite (generate_success session (resolves data) st data H eq_refl Hd).
    exists (deckOf data). cbn [fst presentation].
    split; [reflexivity |]. split; [reflexivity |]. split; [reflexivity |].
    apply deck_count_iff_well_counted.
  - intros P st deck Hr Hp.
    destruct (stored_deck_from_received P st Hr deck Hp) as [data [HP [Hd ->]]].
    exists data. cbn. auto.
  - intros st deck Hr Hp.
    destruct (stored_deck_from_received well_counted st Hr deck Hp)
      as [data [HP [_ ->]]].
    now apply deck_count_iff_well_counted.
Qed.

Lemma sixSlides_history : reachable_with well_counted atLastOfSix.
Proof.
  unfold atLastOfSix.
  change (fst (call activeSession (ThumbnailClick 5) ?s))
    with (fst (interact activeSession (ThumbnailClick 5) s)).
  apply reachable_with_step.
  - apply reachable_with_step.
    + apply reachable_with_init.
    + intros _. reflexivity.
  - exact I.
Defined.

Lemma stored_count_is_reported_count_witness :
  (exists deck,
      presentation
        (fst (run (generatePresentation activeSession
                     (resolves (successResponse sixSlides 6))) initialState))
      = Some deck
      /\ PresentationData.slides deck = sixSlides
      /\ PresentationData.total_slides deck = 6
      /\ (PresentationData.total_slides deck
          = Z.of_nat (length (PresentationData.slides deck))
          <-> well_counted (successResponse sixSlides 6)))
  /\ (exists data,
         well_counted data
         /\ status_is_success data = true
         /\ PresentationData.slides (deckOf (successResponse sixSlides 6))
            = slides_or_empty (PresentationResponse.slides data)
         /\ PresentationData.total_slides (deckOf (successResponse sixSlides 6))
            = number_or (PresentationResponse.slide_count data) 0)
  /\ PresentationData.total_slides (deckOf (successResponse sixSlides 6))
     = Z.of_nat (length (PresentationData.slides
                           (deckOf (successResponse sixSlides 6)))).
Proof.
  split; [| split].
  - apply (proj1 stored_count_is_reported_count activeSession initialState
             (successResponse sixSlides 6)); reflexivity.
  - apply (proj1 (proj2 stored_count_is_reported_count) well_counted atLastOfSix
             (deckOf (successResponse sixSlides 6)));
      [exact sixSlides_history | reflexivity].
  - apply (proj2 (proj2 stored_count_is_reported_count) atLastOfSix
             (deckOf (successResponse sixSlides 6)));
      [exact sixSlides_history | reflexivity].
Defined.

(** A deck built from a response that is the only one ever received is
    the deck of that response: the history decides the deck. *)
Example only_response_decides_the_deck :
  forall st deck,
    reachable_with (eq (successResponse [slideA] 5)) st ->
    presentation st = Some deck ->
    PresentationData.slides deck = [slideA]
    /\ PresentationData.total_slides deck = 5.
Proof.
  intros st deck Hr Hp.
  destruct (stored_deck_from_received _ st Hr deck Hp) as [data [<- [_ ->]]].
  split; reflexivity.
Qed.

(** C4 fails as stated: a success response reporting five slides but
    carrying one puts a non-empty deck with [total_slides = 5] and one
    slide in the store. *)
Lemma stored_count_may_differ_from_length :
  ~ (forall st deck,
        reachable st ->
        presentation st = Some deck ->
        PresentationData.slides deck <> [] ->
        PresentationData.total_slides deck
        = Z.of_nat (length (PresentationData.slides deck))).
Proof.
  intros Hall.
  specialize (Hall
    (fst (interact activeSession
            (GenerateClick (resolves (successResponse [slideA] 5))) initialState))
    (deckOf (successResponse [slideA] 5))).
  assert (Hc : PresentationData.total_slides (deckOf (successResponse [slideA] 5))
               = Z.of_nat (length (PresentationData.slides
                                     (deckOf (successResponse [slideA] 5))))).
  { apply Hall.
    - apply reachable_step. apply reachable_init.
    - reflexivity.
    - discriminate. }
  cbv in Hc. discriminate.
Qed.

(** ** The exported markdown *)

Lemma join_empty_separator (l : list jsstring) : join [] l = concat l.
Proof.
  induction l as [| x [| y r] IH].
  - reflexivity.
  - cbn. now rewrite app_nil_r.
  - change (join [] (x :: y :: r)) with (x ++ [] ++ join [] (y :: r)).
    rewrite IH. reflexivity.
Qed.

Lemma join_then_line_feed (f : jsstring -> jsstring) (x : jsstring) (l : list jsstring) :
  join LF (map f (x :: l)) ++ LF = concat (map (fun item => line (f item)) (x :: l)).
Proof.
  revert x. induction l as [| y r IH]; intros x.
  - cbn. unfold line. now rewrite app_nil_r.
  - change (join LF (map f (x :: y :: r)))
      with (f x ++ LF ++ join LF (map f (y :: r))).
    rewrite <- !app_assoc. rewrite IH. cbn. unfold line.
    now rewrite <- !app_assoc.
Qed.

Lemma bullets_joined (content : list jsstring) (rest : jsstring) :
  join LF (map (fun item => bullet ++ item) content) ++ LF ++ rest
  = bullet_lines_or_empty content ++ rest.
Proof.
  destruct content as [| x l].
  - reflexivity.
  - rewrite app_assoc. f_equal.
    exact (join_then_line_feed (fun item => bullet ++ item) x l).
Qed.

Lemma slideMarkdown_lines slide index :
  slideMarkdown slide index = slide_lines_joined slide (S index).
Proof.
  unfold slideMarkdown, slide_lines_joined, blank_line, line.
  rewrite Nat2Z.inj_succ, <- Z.add_1_r.
  rewrite <- !app_assoc. do 5 f_equal.
  rewrite bullets_joined. reflexivity.
Qed.

Lemma mapi_from_ext {A B} (f g : A -> nat -> B) i l :
  (forall x n, f x n = g x n) -> mapi_from f i l = mapi_from g i l.
Proof.
  intros H. revert i. induction l as [| x r IH]; intros i; cbn;
    [reflexivity | now rewrite H, IH].
Qed.

Lemma lines_agree_on_content slide n :
  PresentationSlide.content slide <> [] ->
  slide_lines_joined slide n = slide_lines slide n.
Proof.
  intros H. unfold slide_lines_joined, slide_lines.
  destruct (PresentationSlide.content slide); [congruence | reflexivity].
Qed.

Lemma mapi_from_lines_agree i l :
  Forall (fun slide => PresentationSlide.content slide <> []) l ->
  mapi_from (fun slide index => slide_lines_joined slide (S index)) i l
  = mapi_from (fun slide index => slide_lines slide (S index)) i l.
Proof.
  intros H. revert i. induction H as [| x r Hx Hr IH]; intros i; cbn [mapi_from].
  - reflexivity.
  - now rewrite IH, (lines_agree_on_content x (S i) Hx).
Qed.

Lemma markdownContent_lines p : markdownContent p = markdown_lines_joined p.
Proof.
  unfold markdownContent, markdown_lines_joined, mapi, blank_line, line.
  rewrite join_empty_separator.
  rewrite (mapi_from_ext slideMarkdown
             (fun slide index => slide_lines_joined slide (S index)) 0
             (PresentationData.slides p) slideMarkdown_lines).
  now rewrite <- !app_assoc.
Qed.

(** C2 as the code has it: the export is the line [# title], a blank
    line, then for each slide in order, numbered from 1, the line
    [## Slide n: title], a blank line, one line per content item
    prefixed with the bullet (a single empty line when the slide has no
    content item), a blank line, the line [---] and a blank line.  With
    no slide the text is the title line and the blank line; when every
    slide has a content item it is the document of the specification. *)
Theorem export_is_the_lines_of_the_deck :
  forall p : PresentationData.t,
    markdownContent p = markdown_lines_joined p
    /\ (PresentationData.slides p = [] ->
        markdownContent p = lit "# " ++ PresentationData.title p ++ LF ++ LF)
    /\ (Forall (fun slide => PresentationSlide.content slide <> [])
          (PresentationData.slides p) ->
        markdownContent p = markdown_lines p).
Proof.
  intros p. split; [apply markdownContent_lines |]. split.
  - intros E. unfold markdownContent. rewrite E.
    change (join [] (mapi slideMarkdown [])) with (@nil N).
    now rewrite !app_nil_r.
  - intros H. rewrite markdownContent_lines.
    unfold markdown_lines_joined, markdown_lines, mapi.
    now rewrite (mapi_from_lines_agree 0 _ H).
Qed.

Lemma export_is_the_lines_of_the_deck_witness :
  markdownContent (deckOf (successResponse [slideA; slideB] 2))
  = markdown_lines (deckOf (successResponse [slideA; slideB] 2))
  /\ markdownContent (deckOf (successResponse [] 0)) = lit "# T" ++ LF ++ LF.
Proof.
  split.
  - apply (proj2 (proj2 (export_is_the_lines_of_the_deck
                           (deckOf (successResponse [slideA; slideB] 2))))).
    repeat constructor; discriminate.
  - apply (proj1 (proj2 (export_is_the_lines_of_the_deck
                           (deckOf (successResponse [] 0))))).
    reflexivity.
Defined.

(** C2 fails as stated: for a slide without content items the export has
    one more line feed than heading, blank line, blank line, separator,
    blank line. *)
Lemma export_of_bare_slide_differs :
  markdownContent (deckOf (successResponse [slideBare] 1))
  = lit "# T" ++ LF ++ LF
    ++ lit "## Slide 1: Bare" ++ LF ++ LF ++ LF ++ LF ++ lit "---" ++ LF ++ LF
  /\ markdown_lines (deckOf (successResponse [slideBare] 1))
     = lit "# T" ++ LF ++ LF
       ++ lit "## Slide 1: Bare" ++ LF ++ LF ++ LF ++ lit "---" ++ LF ++ LF
  /\ markdownContent (deckOf (successResponse [slideBare] 1))
     <> markdown_lines (deckOf (successResponse [slideBare] 1)).
Proof.
  split; [reflexivity |]. split; [reflexivity |]. cbv. discriminate.
Qed.

(** ** Navigation *)

Lemma call_previous session st p :
  Session.active session = true ->
  presentation st = Some p ->
  fst (call session PreviousClick st)
  = {| isGenerating := isGenerating st;
       presentation := presentation st;
       currentSlide := Z.max 0 (currentSlide st - 1);
       presentationUrl := presentationUrl st;
       fallbackUsed := fallbackUsed st;
       formData := formData st |}.
Proof.
  intros H Hp. unfold call, rendered. rewrite H.
  destruct (presentation st) eqn:E; [| discriminate].
  cbn. now rewrite E.
Qed.

Lemma call_next session st p :
  Session.active session = true ->
  presentation st = Some p ->
  fst (call session NextClick st)
  = {| isGenerating := isGenerating st;
       presentation := presentation st;
       currentSlide :=
         Z.min (Z.of_nat (length (PresentationData.slides p)) - 1)
               (currentSlide st + 1);
       presentationUrl := presentationUrl st;
       fallbackUsed := fallbackUsed st;
       formData := formData st |}.
Proof.
  intros H Hp. unfold call, rendered. rewrite H.
  destruct (presentation st) eqn:E; [| discriminate].
  injection Hp as ->. cbn.
  unfold onNext, bind, read, setCurrentSlide, update. cbn. now rewrite ?E.
Qed.

(** Before any deck exists the two buttons are not rendered: a call is
    ignored. *)
Lemma navigation_without_deck session ev st :
  presentation st = None ->
  is_navigation ev = true ->
  call session ev st = (st, []).
Proof.
  intros Hp Hn. unfold call, rendered. rewrite Hp.
  destruct ev; try discriminate; now rewrite andb_false_r.
Qed.

Lemma navigation_not_rendered session ev st :
  rendered session st ev = false -> call session ev st = (st, []).
Proof.
  intros H. unfold call. now rewrite H.
Qed.

(** One navigation call on a deck with at least one slide keeps the deck
    and keeps the cursor among the indices of its slides. *)
Lemma navigation_step_in_range session ev st p :
  presentation st = Some p ->
  PresentationData.slides p <> [] ->
  0 <= currentSlide st <= Z.of_nat (length (PresentationData.slides p)) - 1 ->
  is_navigation ev = true ->
  let st' := fst (call session ev st) in
  presentation st' = Some p
  /\ 0 <= currentSlide st' <= Z.of_nat (length (PresentationData.slides p)) - 1.
Proof.
  intros Hp Hne Hc Hn.
  destruct (rendered session st ev) eqn:Hr.
  - assert (H : Session.active session = true).
    { unfold rendered in Hr. now apply andb_true_iff in Hr. }
    destruct ev; try discriminate.
    + cbv zeta. rewrite (call_previous session st p H Hp). cbn. split; [exact Hp | lia].
    + cbv zeta. rewrite (call_next session st p H Hp). cbn. split; [exact Hp | lia].
  - cbv zeta. rewrite (navigation_not_rendered session ev st Hr). cbn. auto.
Qed.

(** Any sequence of [previous]/[next] calls on a deck with at least one
    slide keeps the cursor among the indices of its slides. *)
Lemma navigation_in_range session evs : forall st p,
  presentation st = Some p ->
  PresentationData.slides p <> [] ->
  0 <= currentSlide st <= Z.of_nat (length (PresentationData.slides p)) - 1 ->
  forallb is_navigation evs = true ->
  presentation (calls session evs st) = Some p
  /\ 0 <= currentSlide (calls session evs st)
       <= Z.of_nat (length (PresentationData.slides p)) - 1.
Proof.
  induction evs as [| ev r IH]; intros st p Hp Hne Hc Hn.
  - cbn. auto.
  - cbn in Hn. apply andb_true_iff in Hn. destruct Hn as [Hev Hr].
    destruct (navigation_step_in_range session ev st p Hp Hne Hc Hev) as [Hp' Hc'].
    cbn [calls]. now apply IH.
Qed.

(** At the first slide [previous] changes nothing; at the last slide of a
    deck with at least one slide [next] changes nothing. *)
Lemma previous_at_first session st :
  currentSlide st = 0 -> fst (call session PreviousClick st) = st.
Proof.
  intros Hc. destruct (rendered session st PreviousClick) eqn:Hr.
  - unfold call. rewrite Hr. cbn. rewrite Hc. destruct st; cbn in *; now subst.
  - now rewrite (navigation_not_rendered session _ st Hr).
Qed.

Lemma next_at_last session st p :
  presentation st = Some p ->
  currentSlide st = Z.of_nat (length (PresentationData.slides p)) - 1 ->
  fst (call session NextClick st) = st.
Proof.
  intros Hp Hc. destruct (rendered session st NextClick) eqn:Hr.
  - assert (H : Session.active session = true).
    { unfold rendered in Hr. now apply andb_true_iff in Hr. }
    rewrite (call_next session st p H Hp). rewrite Hc.
    replace (Z.min _ _) with (Z.of_nat (length (PresentationData.slides p)) - 1)
      by lia.
    rewrite <- Hc. destruct st; reflexivity.
  - now rewrite (navigation_not_rendered session _ st Hr).
Qed.

(** C1 on the deck without slides: a success response with [slides: []]
    and [slide_count: 0] stores a deck with no slide and the cursor 0;
    the Next button is then enabled, and pressing it moves the cursor
    to -1, from where Previous brings it back to 0. *)
Theorem next_on_empty_deck_moves_cursor_below_zero :
  presentation emptyDeckState = Some (deckOf (successResponse [] 0))
  /\ PresentationData.slides (deckOf (successResponse [] 0)) = []
  /\ PresentationData.total_slides (deckOf (successResponse [] 0)) = 0
  /\ currentSlide emptyDeckState = 0
  /\ disabled emptyDeckState NextClick = false
  /\ currentSlide (fst (interact activeSession NextClick emptyDeckState)) = -1
  /\ currentSlide (calls activeSession [NextClick] emptyDeckState) = -1
  /\ currentSlide (calls activeSession [NextClick; PreviousClick] emptyDeckState) = 0.
Proof.
  repeat split.
Qed.

(** * Further properties of the component *)

(** ** Moving the cursor *)

Lemma withCursor_same st : withCursor (currentSlide st) st = st.
Proof. destruct st; reflexivity. Qed.

Lemma call_previous_cursor session st p :
  Session.active session = true ->
  presentation st = Some p ->
  fst (call session PreviousClick st) = withCursor (Z.max 0 (currentSlide st - 1)) st.
Proof.
  intros H Hp. now rewrite (call_previous session st p H Hp).
Qed.

Lemma call_next_cursor session st p :
  Session.active session = true ->
  presentation st = Some p ->
  fst (call session NextClick st)
  = withCursor (Z.min (Z.of_nat (length (PresentationData.slides p)) - 1)
                  (currentSlide st + 1)) st.
Proof.
  intros H Hp. now rewrite (call_next session st p H Hp).
Qed.

Lemma call_thumbnail_cursor session st p index :
  rendered session st (ThumbnailClick index) = true ->
  presentation st = Some p ->
  (index < length (PresentationData.slides p))%nat
  /\ fst (call session (ThumbnailClick index) st) = withCursor (Z.of_nat index) st.
Proof.
  intros Hr Hp. unfold call. rewrite Hr. split; [| reflexivity].
  unfold rendered in Hr. rewrite Hp in Hr.
  apply andb_true_iff in Hr. destruct Hr as [_ Hr].
  now apply Nat.ltb_lt in Hr.
Qed.

Lemma rendered_active session st ev :
  rendered session st ev = true -> Session.active session = true.
Proof.
  unfold rendered. intros H. now apply andb_true_iff in H.
Qed.

Lemma Array_at_in_range {A} (l : list A) (i : Z) :
  0 <= i <= Z.of_nat (length l) - 1 -> exists x, Array_at l i = Some x.
Proof.
  intros H. unfold Array_at.
  destruct (Z.ltb_spec i 0); [lia |].
  destruct (nth_error l (Z.to_nat i)) as [x |] eqn:E; [now exists x |].
  apply nth_error_None in E. lia.
Qed.

(** One cursor event on a deck with at least one slide keeps the deck and
    leaves the cursor on one of its slides. *)
Lemma cursor_event_step session ev st p :
  presentation st = Some p ->
  0 <= currentSlide st <= Z.of_nat (length (PresentationData.slides p)) - 1 ->
  is_cursor_event ev = true ->
  presentation (fst (call session ev st)) = Some p
  /\ 0 <= currentSlide (fst (call session ev st))
       <= Z.of_nat (length (PresentationData.slides p)) - 1.
Proof.
  intros Hp Hc Hev.
  destruct (rendered session st ev) eqn:Hr.
  - pose proof (rendered_active session st ev Hr) as H.
    destruct ev; try discriminate.
    + destruct (call_thumbnail_cursor session st p index Hr Hp) as [Hi ->].
      cbn. split; [exact Hp | lia].
    + rewrite (call_previous_cursor session st p H Hp). cbn. split; [exact Hp | lia].
    + rewrite (call_next_cursor session st p H Hp). cbn. split; [exact Hp | lia].
  - rewrite (navigation_not_rendered session ev st Hr). cbn. auto.
Qed.

(** X1: on a deck with at least one slide, any sequence of Previous,
    Next and thumbnail clicks keeps the deck, keeps the cursor within
    [0, slides.length - 1], and so the slide the view reads exists. *)
Theorem cursor_events_keep_a_slide_shown :
  forall (session : Session.t) (evs : list Event) (st : State)
         (p : PresentationData.t),
    presentation st = Some p ->
    0 <= currentSlide st <= Z.of_nat (length (PresentationData.slides p)) - 1 ->
    forallb is_cursor_event evs = true ->
    presentation (calls session evs st) = Some p
    /\ 0 <= currentSlide (calls session evs st)
         <= Z.of_nat (length (PresentationData.slides p)) - 1
    /\ exists slide, shownSlide (calls session evs st) = Some slide.
Proof.
  intros session evs. induction evs as [| ev r IH]; intros st p Hp Hc Hev.
  - cbn. split; [exact Hp |]. split; [exact Hc |].
    unfold shownSlide. rewrite Hp. now apply Array_at_in_range.
  - cbn in Hev. apply andb_true_iff in Hev. destruct Hev as [Hev Hr].
    destruct (cursor_event_step session ev st p Hp Hc Hev) as [Hp' Hc'].
    cbn [calls]. now apply IH.
Qed.

Lemma cursor_events_keep_a_slide_shown_witness :
  presentation
    (calls activeSession
       [NextClick; ThumbnailClick 4; NextClick; NextClick; PreviousClick;
        ThumbnailClick 9] atThirdOfSix)
  = Some (deckOf (successResponse sixSlides 6))
  /\ 0 <= currentSlide
            (calls activeSession
               [NextClick; ThumbnailClick 4; NextClick; NextClick; PreviousClick;
                ThumbnailClick 9] atThirdOfSix)
       <= Z.of_nat (length (PresentationData.slides
                              (deckOf (successResponse sixSlides 6)))) - 1
  /\ exists slide,
       shownSlide
         (calls activeSession
            [NextClick; ThumbnailClick 4; NextClick; NextClick; PreviousClick;
             ThumbnailClick 9] atThirdOfSix) = Some slide.
Proof.
  apply (cursor_events_keep_a_slide_shown activeSession
           [NextClick; ThumbnailClick 4; NextClick; NextClick; PreviousClick;
            ThumbnailClick 9] atThirdOfSix
           (deckOf (successResponse sixSlides 6))).
  - reflexivity.
  - cbn. lia.
  - reflexivity.
Defined.

(** X2: strictly inside the deck the two buttons undo each other: Next
    then Previous, and Previous then Next, give back the state. *)
Theorem next_and_previous_undo_each_other :
  forall (session : Session.t) (st : State) (p : PresentationData.t),
    Session.active session = true ->
    presentation st = Some p ->
    (0 <= currentSlide st < Z.of_nat (length (PresentationData.slides p)) - 1 ->
     calls session [NextClick; PreviousClick] st = st)
    /\ (0 < currentSlide st <= Z.of_nat (length (PresentationData.slides p)) - 1 ->
        calls session [PreviousClick; NextClick] st = st).
Proof.
  intros session st p H Hp. split; intros Hc; cbn [calls].
  - rewrite (call_next_cursor session st p H Hp).
    rewrite (call_previous_cursor session (withCursor _ st) p H Hp).
    unfold withCursor. cbn.
    replace (Z.max 0 _) with (currentSlide st) by lia.
    destruct st; reflexivity.
  - rewrite (call_previous_cursor session st p H Hp).
    rewrite (call_next_cursor session (withCursor _ st) p H Hp).
    unfold withCursor. cbn.
    replace (Z.min _ _) with (currentSlide st) by lia.
    destruct st; reflexivity.
Qed.

Lemma next_and_previous_undo_each_other_witness :
  calls activeSession [NextClick; PreviousClick] atThirdOfSix = atThirdOfSix
  /\ calls activeSession [PreviousClick; NextClick] atThirdOfSix = atThirdOfSix.
Proof.
  destruct (next_and_previous_undo_each_other activeSession atThirdOfSix
              (deckOf (successResponse sixSlides 6)) eq_refl eq_refl) as [A B].
  split; [apply A | apply B]; cbn; lia.
Defined.

Lemma repeated_next session p k : forall st,
  Session.active session = true ->
  presentation st = Some p ->
  currentSlide st <= Z.of_nat (length (PresentationData.slides p)) - 1 ->
  calls session (repeat NextClick k) st
  = withCursor (Z.min (Z.of_nat (length (PresentationData.slides p)) - 1)
                  (currentSlide st + Z.of_nat k)) st.
Proof.
  induction k as [| k IH]; intros st H Hp Hc.
  - cbn [repeat calls]. replace (Z.min _ _) with (currentSlide st) by lia.
    symmetry. apply withCursor_same.
  - cbn [repeat calls]. rewrite (call_next_cursor session st p H Hp).
    rewrite IH; [| exact H | exact Hp | cbn; lia].
    unfold withCursor. cbn. f_equal. lia.
Qed.

Lemma repeated_previous session p k : forall st,
  Session.active session = true ->
  presentation st = Some p ->
  0 <= currentSlide st ->
  calls session (repeat PreviousClick k) st
  = withCursor (Z.max 0 (currentSlide st - Z.of_nat k)) st.
Proof.
  induction k as [| k IH]; intros st H Hp Hc.
  - cbn [repeat calls]. replace (Z.max _ _) with (currentSlide st) by lia.
    symmetry. apply withCursor_same.
  - cbn [repeat calls]. rewrite (call_previous_cursor session st p H Hp).
    rewrite IH; [| exact H | exact Hp | cbn; lia].
    unfold withCursor. cbn. f_equal. lia.
Qed.

(** X3: pressing Next k times from a cursor not beyond the last slide
    moves it k slides forward and stops at the last slide; pressing
    Previous k times from a cursor not before the first slide moves it k
    slides back and stops at the first.  Nothing else changes. *)
Theorem repeated_navigation_saturates :
  forall (session : Session.t) (st : State) (p : PresentationData.t) (k : nat),
    Session.active session = true ->
    presentation st = Some p ->
    (currentSlide st <= Z.of_nat (length (PresentationData.slides p)) - 1 ->
     calls session (repeat NextClick k) st
     = withCursor (Z.min (Z.of_nat (length (PresentationData.slides p)) - 1)
                     (currentSlide st + Z.of_nat k)) st)
    /\ (0 <= currentSlide st ->
        calls session (repeat PreviousClick k) st
        = withCursor (Z.max 0 (currentSlide st - Z.of_nat k)) st).
Proof.
  intros session st p k H Hp. split; intros Hc.
  - exact (repeated_next session p k st H Hp Hc).
  - exact (repeated_previous session p k st H Hp Hc).
Qed.

Lemma repeated_navigation_saturates_witness :
  calls activeSession (repeat NextClick 7) atThirdOfSix = withCursor 5 atThirdOfSix
  /\ calls activeSession (repeat PreviousClick 1) atThirdOfSix
     = withCursor 1 atThirdOfSix.
Proof.
  split.
  - apply (proj1 (repeated_navigation_saturates activeSession atThirdOfSix
                    (deckOf (successResponse sixSlides 6)) 7 eq_refl eq_refl)).
    cbn. lia.
  - apply (proj2 (repeated_navigation_saturates activeSession atThirdOfSix
                    (deckOf (successResponse sixSlides 6)) 1 eq_refl eq_refl)).
    cbn. lia.
Defined.

(** X4: in the deck view, Previous and Next carry the [disabled]
    attribute exactly when their handler would leave the state as it is,
    whatever the cursor and the number of slides. *)
Theorem disabled_exactly_when_nothing_to_do :
  forall (session : Session.t) (st : State) (p : PresentationData.t) (ev : Event),
    Session.active session = true ->
    presentation st = Some p ->
    is_navigation ev = true ->
    (disabled st ev = true <-> fst (call session ev st) = st).
Proof.
  intros session st p ev H Hp Hev.
  destruct ev; try discriminate.
  - rewrite (call_previous_cursor session st p H Hp). cbn [disabled].
    rewrite Z.eqb_eq. split.
    + intros E. rewrite E. cbn. rewrite <- E. apply withCursor_same.
    + intros E. apply (f_equal currentSlide) in E. cbn in E. lia.
  - rewrite (call_next_cursor session st p H Hp). cbn [disabled]. rewrite Hp.
    rewrite Z.eqb_eq. split.
    + intros E.
      replace (Z.min _ _) with (currentSlide st) by lia.
      apply withCursor_same.
    + intros E. apply (f_equal currentSlide) in E. cbn in E. lia.
Qed.

Lemma disabled_exactly_when_nothing_to_do_witness :
  disabled atLastOfSix NextClick = true
  <-> fst (call activeSession NextClick atLastOfSix) = atLastOfSix.
Proof.
  apply (disabled_exactly_when_nothing_to_do activeSession atLastOfSix
           (deckOf (successResponse sixSlides 6)) NextClick); reflexivity.
Defined.

(** ** Exporting *)

Lemma export_run st :
  run exportPresentation st
  = (st,
     match presentation st with
     | Some p =>
         [download
            (replaceWhiteSpaceRuns (lit "_") (PresentationData.title p) ++ lit ".md")
            (lit "text/markdown") (markdownContent p);
          toast_success (lit "Presentation exported as Markdown!") None]
     | None => []
     end).
Proof.
  unfold run, exportPresentation, bind, read.
  destruct (presentation st); reflexivity.
Qed.

(** X5: pressing "Export MD" never changes the component state; it
    triggers a download, of the markdown of the stored deck and followed
    by one success notice, when a session is active and a deck is stored,
    and does nothing at all otherwise. *)
Theorem export_click_downloads_the_stored_deck :
  forall (session : Session.t) (st : State),
    fst (interact session ExportClick st) = st
    /\ (forall p,
           Session.active session = true ->
           presentation st = Some p ->
           snd (interact session ExportClick st)
           = [download
                (replaceWhiteSpaceRuns (lit "_") (PresentationData.title p)
                 ++ lit ".md")
                (lit "text/markdown") (markdownContent p);
              toast_success (lit "Presentation exported as Markdown!") None])
    /\ (Session.active session = false \/ presentation st = None ->
        snd (interact session ExportClick st) = []).
Proof.
  intros session st.
  assert (E : interact session ExportClick st
              = if rendered session st ExportClick
                then run exportPresentation st else (st, [])).
  { reflexivity. }
  rewrite E, export_run. unfold rendered.
  split; [| split].
  - destruct (Session.active session), (presentation st); reflexivity.
  - intros p H Hp. rewrite H, Hp. reflexivity.
  - intros [H | Hp].
    + rewrite H. reflexivity.
    + rewrite Hp. now destruct (Session.active session).
Qed.

Lemma export_click_downloads_the_stored_deck_witness :
  snd (interact activeSession ExportClick atLastOfSix)
  = [download (lit "T.md") (lit "text/markdown")
       (markdownContent (deckOf (successResponse sixSlides 6)));
     toast_success (lit "Presentation exported as Markdown!") None]
  /\ snd (interact activeSession ExportClick initialState) = [].
Proof.
  destruct (export_click_downloads_the_stored_deck activeSession atLastOfSix)
    as [_ [A _]].
  destruct (export_click_downloads_the_stored_deck activeSession initialState)
    as [_ [_ B]].
  split.
  - apply (A (deckOf (successResponse sixSlides 6))); reflexivity.
  - apply B. right. reflexivity.
Defined.

Lemma no_white_space_app a b :
  no_white_space (a ++ b) = no_white_space a && no_white_space b.
Proof.
  unfold no_white_space. apply forallb_app.
Qed.

Lemma replaceRuns_no_white_space r inRun s :
  no_white_space r = true -> no_white_space (replaceRuns r inRun s) = true.
Proof.
  intros Hr. revert inRun. induction s as [| c t IH]; intros inRun.
  - reflexivity.
  - cbn [replaceRuns]. destruct (isWhiteSpace c) eqn:Hc.
    + rewrite no_white_space_app, IH.
      destruct inRun; [reflexivity | now rewrite Hr].
    + change (no_white_space (c :: replaceRuns r false t))
        with (negb (isWhiteSpace c) && no_white_space (replaceRuns r false t)).
      now rewrite Hc, IH.
Qed.

Lemma replaceRuns_without_white_space r inRun s :
  no_white_space s = true -> replaceRuns r inRun s = s.
Proof.
  revert inRun. induction s as [| c t IH]; intros inRun H.
  - reflexivity.
  - change (no_white_space (c :: t))
      with (negb (isWhiteSpace c) && no_white_space t) in H.
    apply andb_true_iff in H. destruct H as [Hc Ht].
    apply negb_true_iff in Hc. cbn [replaceRuns]. rewrite Hc.
    now rewrite IH.
Qed.

Lemma replaceRuns_length r inRun s :
  (length r <= 1)%nat -> (length (replaceRuns r inRun s) <= length s)%nat.
Proof.
  intros Hr. revert inRun. induction s as [| c t IH]; intros inRun.
  - cbn. lia.
  - cbn [replaceRuns]. destruct (isWhiteSpace c).
    + rewrite length_app. specialize (IH true).
      destruct inRun; cbn [length]; lia.
    + cbn [length]. specialize (IH false). lia.
Qed.

Lemma replaceRuns_not_empty r c t :
  r <> [] -> replaceRuns r false (c :: t) <> [].
Proof.
  intros Hr. cbn [replaceRuns]. destruct (isWhiteSpace c).
  - destruct r; [congruence | discriminate].
  - discriminate.
Qed.

(** X6: whatever the deck's title, the name of the downloaded file
    contains no white space or line break and ends in ".md"; it is never
    longer than the title plus the extension, and its stem is empty only
    for an empty title. *)
Theorem export_file_name_is_clean :
  forall title : jsstring,
    let stem := replaceWhiteSpaceRuns (lit "_") title in
    no_white_space (stem ++ lit ".md") = true
    /\ (length (stem ++ lit ".md") <= length title + 3)%nat
    /\ (stem = [] <-> title = []).
Proof.
  intros title stem. subst stem. unfold replaceWhiteSpaceRuns.
  split; [| split].
  - rewrite no_white_space_app, replaceRuns_no_white_space; reflexivity.
  - rewrite length_app.
    pose proof (replaceRuns_length (lit "_") false title) as L.
    cbn [length lit] in *. cbn in L |- *. specialize (L (le_n 1)). lia.
  - split.
    + destruct title as [| c t]; [reflexivity |].
      intros E. exfalso.
      now apply (replaceRuns_not_empty (lit "_") c t) in E.
    + intros ->. reflexivity.
Qed.

(** X7: replacing white-space runs leaves a title without white space as
    it is, so doing it twice gives the same name as doing it once. *)
Theorem export_file_name_is_stable :
  forall title : jsstring,
    (no_white_space title = true ->
     replaceWhiteSpaceRuns (lit "_") title = title)
    /\ replaceWhiteSpaceRuns (lit "_") (replaceWhiteSpaceRuns (lit "_") title)
       = replaceWhiteSpaceRuns (lit "_") title.
Proof.
  intros title. unfold replaceWhiteSpaceRuns. split.
  - apply replaceRuns_without_white_space.
  - apply replaceRuns_without_white_space.
    now apply replaceRuns_no_white_space.
Qed.

Lemma export_file_name_is_stable_witness :
  replaceWhiteSpaceRuns (lit "_") (lit "My_big_deck") = lit "My_big_deck"
  /\ replaceWhiteSpaceRuns (lit "_") (replaceWhiteSpaceRuns (lit "_") (lit "My  big deck"))
     = replaceWhiteSpaceRuns (lit "_") (lit "My  big deck").
Proof.
  split.
  - apply (proj1 (export_file_name_is_stable (lit "My_big_deck"))). reflexivity.
  - apply (proj2 (export_file_name_is_stable (lit "My  big deck"))).
Defined.

Lemma mapi_from_app {A B} (f : A -> nat -> B) l1 : forall i l2,
  mapi_from f i (l1 ++ l2)
  = mapi_from f i l1 ++ mapi_from f (i + length l1) l2.
Proof.
  induction l1 as [| x r IH]; intros i l2.
  - cbn. now rewrite Nat.add_0_r.
  - cbn [app mapi_from length]. rewrite IH.
    now rewrite <- Nat.add_succ_comm.
Qed.

(** X8: the export of a deck whose slides are [l1 ++ l2] is the export
    of the deck with slides [l1] followed by the sections of [l2],
    numbered on from the slides before them: slides added at the end
    change nothing in the text before them. *)
Theorem export_of_appended_slides :
  forall (p q : PresentationData.t) (l2 : list PresentationSlide.t),
    PresentationData.title p = PresentationData.title q ->
    PresentationData.slides p = PresentationData.slides q ++ l2 ->
    markdownContent p
    = markdownContent q
      ++ join [] (mapi_from slideMarkdown (length (PresentationData.slides q)) l2).
Proof.
  intros p q l2 Ht Hs. unfold markdownContent, mapi.
  rewrite Ht, Hs, mapi_from_app, !join_empty_separator, concat_app.
  now rewrite <- !app_assoc.
Qed.

Lemma export_of_appended_slides_witness :
  markdownContent (deckWith [slideA; slideB; slideBare])
  = markdownContent (deckWith [slideA; slideB])
    ++ join [] (mapi_from slideMarkdown 2 [slideBare]).
Proof.
  apply (export_of_appended_slides (deckWith [slideA; slideB; slideBare])
           (deckWith [slideA; slideB]) [slideBare]); reflexivity.
Defined.

Lemma export_file_name_is_clean_witness :
  no_white_space (replaceWhiteSpaceRuns (lit "_") (lit "My  big deck") ++ lit ".md")
  = true
  /\ (length (replaceWhiteSpaceRuns (lit "_") (lit "My  big deck") ++ lit ".md")
      <= length (lit "My  big deck") + 3)%nat
  /\ (replaceWhiteSpaceRuns (lit "_") (lit "My  big deck") = []
      <-> lit "My  big deck" = []).
Proof.
  apply (export_file_name_is_clean (lit "My  big deck")).
Defined.

(** ** The topic that is sent *)

Lemma trimStart_head s c t :
  trimStart s = c :: t -> isWhiteSpace c = false.
Proof.
  induction s as [| x r IH]; cbn; [discriminate |].
  destruct (isWhiteSpace x) eqn:Hx; [exact IH |].
  intros E. injection E as -> _. exact Hx.
Qed.

Lemma trimStart_fixed s :
  (forall c, hd_error s = Some c -> isWhiteSpace c = false) -> trimStart s = s.
Proof.
  destruct s as [| x r]; [reflexivity |].
  intros H. cbn. now rewrite (H x eq_refl).
Qed.

Lemma trimStart_snoc l c :
  isWhiteSpace c = false -> trimStart (l ++ [c]) = trimStart l ++ [c].
Proof.
  intros Hc. induction l as [| x r IH]; cbn.
  - now rewrite Hc.
  - destruct (isWhiteSpace x); [exact IH | reflexivity].
Qed.

Lemma trim_head s c :
  hd_error (trim s) = Some c -> isWhiteSpace c = false.
Proof.
  unfold trim, trimEnd.
  destruct (trimStart s) as [| x u] eqn:E; [discriminate |].
  pose proof (trimStart_head s x u E) as Hx.
  cbn [rev]. rewrite (trimStart_snoc _ x Hx), rev_app_distr. cbn.
  intros Hc. injection Hc as <-. exact Hx.
Qed.

Lemma trim_last s c :
  hd_error (rev (trim s)) = Some c -> isWhiteSpace c = false.
Proof.
  unfold trim, trimEnd. rewrite rev_involutive.
  destruct (trimStart (rev (trimStart s))) as [| x u] eqn:E; [discriminate |].
  intros Hc. injection Hc as <-. exact (trimStart_head _ x u E).
Qed.

Lemma trim_fixed s : trim (trim s) = trim s.
Proof.
  assert (Hs : trimStart (trim s) = trim s).
  { apply trimStart_fixed. apply trim_head. }
  unfold trim at 1. rewrite Hs. unfold trimEnd.
  rewrite (trimStart_fixed (rev (trim s)) (trim_last s)).
  apply rev_involutive.
Qed.

(** X9: when a request carries a topic, it is the trimmed text of the
    form: it is not empty, neither its first nor its last code unit is
    white space, and trimming it again would change nothing. *)
Theorem sent_topic_is_trimmed :
  forall (session : Session.t) (net : FetchOutcome) (st : State)
         (url : jsstring) (init : RequestInit) (t : jsstring),
    In (fetch url init) (snd (run (generatePresentation session net) st)) ->
    member (lit "topic") (body init) = Some (JString t) ->
    t = trim (topic (formData st))
    /\ t <> []
    /\ (forall c, hd_error t = Some c -> isWhiteSpace c = false)
    /\ (forall c, hd_error (rev t) = Some c -> isWhiteSpace c = false)
    /\ trim t = t.
Proof.
  intros session net st url init t Hin Hm.
  apply only_request_logged in Hin. unfold theRequest in Hin.
  injection Hin as _ ->. cbn [body] in Hm.
  destruct (list_eq_dec N.eq_dec (trim (topic (formData st))) []) as [E | E].
  - rewrite (body_without_topic _ E) in Hm. discriminate.
  - rewrite (body_with_topic _ E) in Hm. cbn in Hm. injection Hm as <-.
    split; [reflexivity |]. split; [exact E |].
    split; [apply trim_head |]. split; [apply trim_last | apply trim_fixed].
Qed.

Lemma sent_topic_is_trimmed_witness :
  lit "AI  safety" = trim (lit "  AI  safety ")
  /\ lit "AI  safety" <> []
  /\ (forall c, hd_error (lit "AI  safety") = Some c -> isWhiteSpace c = false)
  /\ (forall c, hd_error (rev (lit "AI  safety")) = Some c -> isWhiteSpace c = false)
  /\ trim (lit "AI  safety") = lit "AI  safety".
Proof.
  apply (sent_topic_is_trimmed activeSession networkDown paddedTopicState
           (lit "/api/generate-presentation")
           {| method := lit "POST";
              headers := [(lit "Content-Type", lit "application/json")];
              body := [(lit "session_id", JString (lit "default"));
                       (lit "topic", JString (lit "AI  safety"));
                       (lit "max_slides", JNumber 8)] |}).
  - left. reflexivity.
  - reflexivity.
Defined.

(** ** What a generation call always does *)

Lemma or_else_not_empty a b : b <> [] -> or_else a b <> [].
Proof.
  intros Hb. destruct a as [[| x a] |]; cbn; [exact Hb | discriminate | exact Hb].
Qed.

(** X10: a generation call never touches the form, and with an active
    session it ends with the [isGenerating] flag off whether the request
    succeeded, was answered with an error status, or threw. *)
Theorem generation_ends_idle :
  forall (session : Session.t) (net : FetchOutcome) (st : State),
    formData (fst (run (generatePresentation session net) st)) = formData st
    /\ (Session.active session = true ->
        isGenerating (fst (run (generatePresentation session net) st)) = false).
Proof.
  intros session net st. unfold run.
  destruct (Session.active session) eqn:H.
  - generate_cases session net st H; cbn; auto.
  - rewrite (generate_inactive session net st H). cbn. split; [reflexivity |].
    discriminate.
Qed.

Lemma generation_ends_idle_witness :
  formData (fst (run (generatePresentation activeSession networkDown)
                   paddedTopicState)) = formData paddedTopicState
  /\ isGenerating (fst (run (generatePresentation activeSession networkDown)
                          paddedTopicState)) = false.
Proof.
  destruct (generation_ends_idle activeSession networkDown paddedTopicState)
    as [A B].
  split; [exact A | apply B; reflexivity].
Defined.

(** X11: every generation call shows exactly one toast.  With an active
    session it sends exactly one request, before the toast, and writes
    to the console exactly when the request or the reading of its body
    threw; without one it sends nothing and writes nothing. *)
Theorem generation_shows_one_toast :
  forall (session : Session.t) (net : FetchOutcome) (st : State),
    let log := snd (run (generatePresentation session net) st) in
    count is_toast log = 1%nat
    /\ count is_fetch log = (if Session.active session then 1 else 0)%nat
    /\ count is_console_error log
       = (if Session.active session && transport_error net then 1 else 0)%nat
    /\ (Session.active session = true -> hd_error log = Some (theRequest st)).
Proof.
  intros session net st. unfold run, transport_error.
  destruct (Session.active session) eqn:H.
  - generate_cases session net st H; cbn.
    + repeat split.
    + destruct (flag_set _); repeat split.
    + repeat split.
  - rewrite (generate_inactive session net st H). cbn.
    repeat split. discriminate.
Qed.

Lemma generation_shows_one_toast_witness :
  hd_error (snd (run (generatePresentation activeSession networkDown) initialState))
  = Some (theRequest initialState).
Proof.
  apply (generation_shows_one_toast activeSession networkDown initialState).
  reflexivity.
Defined.

(** X12: an error toast of a generation call is never blank: an empty
    diagnostic is skipped for the next one, and the last resort is a
    fixed text. *)
Theorem error_notice_is_never_blank :
  forall (session : Session.t) (net : FetchOutcome) (st : State) (msg : jsstring),
    In (toast_error msg) (snd (run (generatePresentation session net) st)) ->
    msg <> [].
Proof.
  intros session net st msg. unfold run.
  destruct (Session.active session) eqn:H.
  - generate_cases session net st H; cbn.
    + intros [E | [E | [E | []]]]; try discriminate.
      injection E as <-. unfold caughtMessage.
      apply or_else_not_empty, or_else_not_empty. discriminate.
    + destruct (flag_set _); intros [E | [E | []]]; discriminate.
    + intros [E | [E | []]]; try discriminate.
      injection E as <-. apply or_else_not_empty. discriminate.
  - rewrite (generate_inactive session net st H). cbn.
    intros [E | []]. injection E as <-. discriminate.
Qed.

Lemma error_notice_is_never_blank_witness :
  lit "Failed to generate presentation" <> [].
Proof.
  apply (error_notice_is_never_blank activeSession
           (resolves (errorResponse (Some []))) initialState).
  right. left. reflexivity.
Defined.

(** X13: the fallback flag of a success response decides only the
    stored flag and the notice: the deck, the artifact URL and the cursor
    are the same whatever the flag, and the long notice about basic mode
    is shown exactly when the flag is set. *)
Theorem fallback_changes_only_flag_and_notice :
  forall (session : Session.t) (st : State) (d : PresentationResponse.t)
         (f : option bool),
    Session.active session = true ->
    status_is_success d = true ->
    let st1 := fst (run (generatePresentation session (resolves d)) st) in
    let run2 := run (generatePresentation session (resolves (withFallback f d))) st in
    presentation (fst run2) = presentation st1
    /\ presentationUrl (fst run2) = presentationUrl st1
    /\ currentSlide (fst run2) = currentSlide st1
    /\ fallbackUsed (fst run2) = flag_set f
    /\ (In (toast_success
              (lit "Presentation created in basic mode (AI quota exceeded)")
              (Some 6000)) (snd run2) <-> flag_set f = true)
    /\ (In (toast_success (lit "Presentation generated successfully!") None)
          (snd run2) <-> flag_set f = false).
Proof.
  intros session st d f H Hd. unfold run.
  assert (Hd' : status_is_success (withFallback f d) = true) by exact Hd.
  rewrite (generate_success session (resolves d) st d H eq_refl Hd).
  rewrite (generate_success session (resolves (withFallback f d)) st
             (withFallback f d) H eq_refl Hd').
  cbn. repeat split; try (destruct f as [[|] |]; reflexivity).
  - destruct (flag_set f); intros [E | [E | []]]; try discriminate; reflexivity.
  - intros ->. right. left. reflexivity.
  - destruct (flag_set f); intros [E | [E | []]]; try discriminate; reflexivity.
  - intros ->. right. left. reflexivity.
Qed.

Lemma fallback_changes_only_flag_and_notice_witness :
  let d := successResponse [slideA; slideB] 2 in
  let st1 := fst (run (generatePresentation activeSession (resolves d)) initialState) in
  let run2 := run (generatePresentation activeSession
                     (resolves (withFallback (Some true) d))) initialState in
  presentation (fst run2) = presentation st1
  /\ presentationUrl (fst run2) = presentationUrl st1
  /\ currentSlide (fst run2) = currentSlide st1
  /\ fallbackUsed (fst run2) = flag_set (Some true)
  /\ (In (toast_success
            (lit "Presentation created in basic mode (AI quota exceeded)")
            (Some 6000)) (snd run2) <-> flag_set (Some true) = true)
  /\ (In (toast_success (lit "Presentation generated successfully!") None)
        (snd run2) <-> flag_set (Some true) = false).
Proof.
  apply (fallback_changes_only_flag_and_notice activeSession initialState
           (successResponse [slideA; slideB] 2) (Some true)); reflexivity.
Defined.

(** ** Invariants of the component *)

Lemma rendered_form_side session st ev :
  rendered session st ev = true ->
  match ev with
  | GenerateClick _ | TopicChange _ | SlideCountChange _ => presentation st = None
  | _ => exists p, presentation st = Some p
  end.
Proof.
  unfold rendered. intros H. apply andb_true_iff in H. destruct H as [_ H].
  destruct (presentation st) as [p |], ev; try discriminate; eauto.
Qed.

Lemma call_cases session ev st :
  call_result session ev st (fst (call session ev st)).
Proof.
  destruct (rendered session st ev) eqn:Hr.
  - pose proof (rendered_active session st ev Hr) as H.
    pose proof (rendered_form_side session st ev Hr) as Hside.
    destruct ev.
    + unfold call. rewrite Hr. cbn [handler].
      generate_cases session net st H; cbn [fst].
      * apply result_idle; eauto.
      * apply (result_stored session _ st d); eauto.
      * apply result_idle; eauto.
    + unfold call. rewrite Hr. cbn.
      apply (result_form session _ st {| topic := v;
                                         slideCount := slideCount (formData st) |});
        [reflexivity | exact Hside].
    + unfold call. rewrite Hr. cbn.
      apply (result_form session _ st {| topic := topic (formData st);
                                         slideCount := v |});
        [reflexivity | exact Hside].
    + unfold call. rewrite Hr. cbn [handler].
      change (fst (let '(_, st', log) := exportPresentation st in (st', log)))
        with (fst (run exportPresentation st)).
      rewrite export_run. apply result_same.
    + unfold call. rewrite Hr. cbn. now apply result_cleared.
    + destruct Hside as [p Hp].
      destruct (call_thumbnail_cursor session st p index Hr Hp) as [Hi ->].
      now apply (result_thumbnail session _ st p index).
    + destruct Hside as [p Hp].
      rewrite (call_previous_cursor session st p H Hp).
      now apply (result_previous session _ st p).
    + destruct Hside as [p Hp].
      rewrite (call_next_cursor session st p H Hp).
      now apply (result_next session _ st p).
  - rewrite (navigation_not_rendered session ev st Hr). apply result_same.
Qed.

Lemma interact_cases session ev st :
  call_result session ev st (fst (interact session ev st)).
Proof.
  unfold interact. destruct (disabled st ev); [apply result_same |].
  apply call_cases.
Qed.

(** Induction over the reachable states through the shapes of a step. *)
Lemma reachable_invariant (P : State -> Prop) :
  P initialState ->
  (forall session ev st st', P st -> call_result session ev st st' -> P st') ->
  forall st, reachable st -> P st.
Proof.
  intros Hinit Hstep st Hr. induction Hr as [| session st ev Hr IH].
  - exact Hinit.
  - exact (Hstep session ev st _ IH (interact_cases session ev st)).
Qed.

(** X14: in every state the component can reach, the artifact URL and
    the fallback flag are set only while a deck is stored, and a stored
    URL is never the empty string: so the download link and the "Basic
    Mode" badge never refer to a deck that is gone. *)
Theorem ancillary_fields_follow_the_deck :
  forall st : State,
    reachable st ->
    (presentation st = None ->
     presentationUrl st = None /\ fallbackUsed st = false)
    /\ presentationUrl st <> Some [].
Proof.
  apply reachable_invariant.
  - split; [split; reflexivity | discriminate].
  - intros session ev st st' [Hn Hu] Hres.
    destruct Hres; cbn; try (split; [exact Hn | exact Hu]).
    + split; [discriminate |].
      destruct (PresentationResponse.presentation_url d) as [[| c u] |];
        discriminate.
    + split; [split; reflexivity | discriminate].
Qed.

Lemma ancillary_fields_follow_the_deck_witness :
  (presentation clearedAtFive = None ->
   presentationUrl clearedAtFive = None /\ fallbackUsed clearedAtFive = false)
  /\ presentationUrl clearedAtFive <> Some [].
Proof.
  apply (ancillary_fields_follow_the_deck clearedAtFive).
  unfold clearedAtFive, atLastOfSix.
  change (fst (call activeSession NewPresentationClick ?s))
    with (fst (interact activeSession NewPresentationClick s)).
  change (fst (call activeSession (ThumbnailClick 5) ?s))
    with (fst (interact activeSession (ThumbnailClick 5) s)).
  repeat apply reachable_step. apply reachable_init.
Defined.

Lemma cursor_fits_step session ev st st' :
  cursor_fits st -> call_result session ev st st' -> cursor_fits st'.
Proof.
  unfold cursor_fits. intros Hc Hres.
  destruct Hres as [| _ Hp | d _ Hp _ | f _ Hp | | p index _ Hp Hi | p _ Hp | p _ Hp];
    cbn; try rewrite Hp in *; try exact Hc; try exact I.
  - destruct (slides_or_empty (PresentationResponse.slides d)) as [| x l];
      cbn [length]; lia.
  - destruct (PresentationData.slides p); cbn [length] in *; lia.
  - destruct (PresentationData.slides p); cbn [length] in *; lia.
  - destruct (PresentationData.slides p); cbn [length] in *; lia.
Qed.

(** X15: in every state the component can reach with a deck that has at
    least one slide, the cursor is the index of one of its slides, so the
    slide the view reads exists; with a deck without slides the cursor is
    0 or -1. *)
Theorem reachable_cursor_fits_the_deck :
  forall st : State,
    reachable st ->
    cursor_fits st
    /\ (forall p,
           presentation st = Some p ->
           PresentationData.slides p <> [] ->
           0 <= currentSlide st
           <= Z.of_nat (length (PresentationData.slides p)) - 1
           /\ exists slide, shownSlide st = Some slide).
Proof.
  intros st Hr.
  assert (Hc : cursor_fits st).
  { revert st Hr. apply reachable_invariant.
    - exact I.
    - intros session ev st st' Hc Hres.
      exact (cursor_fits_step session ev st st' Hc Hres). }
  split; [exact Hc |].
  intros p Hp Hne. unfold cursor_fits in Hc. rewrite Hp in Hc.
  assert (Hb : 0 <= currentSlide st
               <= Z.of_nat (length (PresentationData.slides p)) - 1).
  { destruct (PresentationData.slides p); [congruence | exact Hc]. }
  split; [exact Hb |].
  unfold shownSlide. rewrite Hp. now apply Array_at_in_range.
Qed.

Lemma reachable_cursor_fits_the_deck_witness :
  cursor_fits atLastOfSix
  /\ (forall p,
         presentation atLastOfSix = Some p ->
         PresentationData.slides p <> [] ->
         0 <= currentSlide atLastOfSix
         <= Z.of_nat (length (PresentationData.slides p)) - 1
         /\ exists slide, shownSlide atLastOfSix = Some slide).
Proof.
  apply (reachable_cursor_fits_the_deck atLastOfSix).
  unfold atLastOfSix.
  change (fst (call activeSession (ThumbnailClick 5) ?s))
    with (fst (interact activeSession (ThumbnailClick 5) s)).
  repeat apply reachable_step. apply reachable_init.
Defined.

(** X16: while a deck is shown no handler replaces it by another deck:
    a call keeps the deck, or, for "New Presentation" only, empties the
    store.  A new generation can only start from the emptied store. *)
Theorem shown_deck_is_kept_or_cleared :
  forall (session : Session.t) (ev : Event) (st : State) (p : PresentationData.t),
    presentation st = Some p ->
    presentation (fst (call session ev st)) = Some p
    \/ (ev = NewPresentationClick
        /\ store (fst (call session ev st)) = (None, None, false)).
Proof.
  intros session ev st p Hp.
  destruct (call_cases session ev st)
    as [| _ Hn | d _ Hn _ | f _ Hn | Hev | | |]; cbn; try congruence; auto.
Qed.

Lemma shown_deck_is_kept_or_cleared_witness :
  presentation
    (fst (call activeSession (GenerateClick (resolves (successResponse [slideA] 1)))
            atLastOfSix))
  = Some (deckOf (successResponse sixSlides 6))
  \/ (GenerateClick (resolves (successResponse [slideA] 1)) = NewPresentationClick
      /\ store (fst (call activeSession
                       (GenerateClick (resolves (successResponse [slideA] 1)))
                       atLastOfSix)) = (None, None, false)).
Proof.
  apply (shown_deck_is_kept_or_cleared activeSession
           (GenerateClick (resolves (successResponse [slideA] 1))) atLastOfSix
           (deckOf (successResponse sixSlides 6))).
  reflexivity.
Defined.

Lemma call_log_fetch session ev st x :
  In x (snd (call session ev st)) ->
  is_fetch x = true ->
  x = theRequest st /\ exists net, ev = GenerateClick net.
Proof.
  unfold call. destruct (rendered session st ev) eqn:Hr; [| intros []].
  destruct ev; cbn [handler].
  - intros Hin Hx. destruct x; try discriminate.
    split; [| eauto].
    apply (only_request_logged session net st url init). exact Hin.
  - cbn. intros [].
  - cbn. intros [].
  - change (snd (let '(_, st', log) := exportPresentation st in (st', log)))
      with (snd (run exportPresentation st)).
    rewrite export_run. cbn [snd].
    destruct (presentation st); cbn; [| intros []].
    intros [<- | [<- | []]]; discriminate.
  - cbn. intros [].
  - cbn. intros [].
  - cbn. intros [].
  - destruct (presentation st); cbn; intros [].
Qed.

(** X17: among the handlers the component attaches to its controls,
    only the one of "Generate Presentation" calls [fetch], and only when
    it fires with an active session, the form shown (no deck stored) and
    no generation under way; the request is then the one built from the
    form.  The "Download PPTX" link carries no handler and is not an
    [Event]: following its [href] is the browser's doing, not a call of
    the component. *)
Theorem only_generate_calls_fetch :
  forall (session : Session.t) (ev : Event) (st : State) (x : Effect),
    In x (snd (interact session ev st)) ->
    is_fetch x = true ->
    x = theRequest st
    /\ (exists net, ev = GenerateClick net)
    /\ Session.active session = true
    /\ presentation st = None
    /\ isGenerating st = false.
Proof.
  intros session ev st x. unfold interact.
  destruct (disabled st ev) eqn:Hd; [intros [] |].
  intros Hin Hx.
  destruct (call_log_fetch session ev st x Hin Hx) as [E [net Hev]].
  split; [exact E |]. split; [eauto |]. subst ev.
  unfold call in Hin. destruct (rendered session st (GenerateClick net)) eqn:Hr;
    [| destruct Hin].
  split; [exact (rendered_active session st _ Hr) |].
  split; [exact (rendered_form_side session st _ Hr) | exact Hd].
Qed.

Lemma only_generate_calls_fetch_witness :
  theRequest paddedTopicState = theRequest paddedTopicState
  /\ (exists net, GenerateClick networkDown = GenerateClick net)
  /\ Session.active activeSession = true
  /\ presentation paddedTopicState = None
  /\ isGenerating paddedTopicState = false.
Proof.
  apply (only_generate_calls_fetch activeSession (GenerateClick networkDown)
           paddedTopicState (theRequest paddedTopicState)).
  - left. reflexivity.
  - reflexivity.
Defined.

(** X18: a deck the component can hold always has a non-empty title and
    the theme "professional", so the exported file never has an empty
    stem. *)
Theorem stored_deck_has_a_title :
  forall (st : State) (p : PresentationData.t),
    reachable st ->
    presentation st = Some p ->
    PresentationData.title p <> []
    /\ PresentationData.theme p = lit "professional"
    /\ replaceWhiteSpaceRuns (lit "_") (PresentationData.title p) <> [].
Proof.
  intros st p Hr Hp.
  destruct (reachable_deck_from_response st Hr p Hp) as [d [_ ->]].
  assert (Ht : PresentationData.title (deckOf d) <> []).
  { cbn. apply or_else_not_empty. discriminate. }
  split; [exact Ht |]. split; [reflexivity |].
  destruct (PresentationData.title (deckOf d)) as [| c t]; [congruence |].
  apply replaceRuns_not_empty. discriminate.
Qed.

Lemma stored_deck_has_a_title_witness :
  PresentationData.title (deckOf (successResponse sixSlides 6)) <> []
  /\ PresentationData.theme (deckOf (successResponse sixSlides 6))
     = lit "professional"
  /\ replaceWhiteSpaceRuns (lit "_")
       (PresentationData.title (deckOf (successResponse sixSlides 6))) <> [].
Proof.
  apply (stored_deck_has_a_title atLastOfSix (deckOf (successResponse sixSlides 6))).
  - unfold atLastOfSix.
    change (fst (call activeSession (ThumbnailClick 5) ?s))
      with (fst (interact activeSession (ThumbnailClick 5) s)).
    repeat apply reachable_step. apply reachable_init.
  - reflexivity.
Defined.

(** X19: the form is changed by its two inputs only, and they change
    nothing else: every other handler, a generation and "New
    Presentation" included, leaves the topic and the slide count as they
    were, and an input leaves the store, the cursor and the generating
    flag as they were. *)
Theorem form_and_store_are_independent :
  forall (session : Session.t) (ev : Event) (st : State),
    (is_form_event ev = false ->
     formData (fst (call session ev st)) = formData st)
    /\ (is_form_event ev = true ->
        store (fst (call session ev st)) = store st
        /\ currentSlide (fst (call session ev st)) = currentSlide st
        /\ isGenerating (fst (call session ev st)) = isGenerating st).
Proof.
  intros session ev st.
  destruct (call_cases session ev st)
    as [| [net ->] _ | d [net ->] _ _ | f Hf _ | -> | p index -> _ _ | p -> _ | p -> _];
    cbn; split; intros Hev; try discriminate; try congruence; auto.
Qed.

Lemma form_and_store_are_independent_witness :
  formData (fst (call activeSession NewPresentationClick atLastOfSix))
  = formData atLastOfSix
  /\ store (fst (call activeSession (SlideCountChange 12) initialState))
     = store initialState.
Proof.
  split.
  - apply (proj1 (form_and_store_are_independent activeSession
                    NewPresentationClick atLastOfSix)).
    reflexivity.
  - apply (proj2 (form_and_store_are_independent activeSession
                    (SlideCountChange 12) initialState)).
    reflexivity.
Defined.
